(** * movement_primitives / visualization.py

    A shallow embedding of the Open3D based viewer helpers
    ([Figure], [Frame], [Trajectory], the URDF projection functions) and
    the properties of the camera orbit and of the trajectory builder.

    Numbers: numpy's float64 entries are modelled by the real numbers of
    the Standard Library (exact arithmetic, no rounding); the samples of
    [np.linspace] are modelled by exact rationals.  Python integers are
    [Z].  Exceptions are values of [exn]; every effectful function runs in
    the state-and-error monad [M], whose state survives a raised
    exception (as the Python heap does). *)

From Stdlib Require Import Reals Lra Lia RNsatz ZArith QArith Qround List String Bool.
Import ListNotations.

(* ===================================================================== *)
(** * Part I: definitions                                                 *)
(* ===================================================================== *)

(** ** Python exceptions and the state-and-error monad *)

Inductive exn : Type :=
| AssertionError (msg : string)
| NotImplementedError
| IndexError (msg : string)
| ValueError (msg : string)
| KeyError (msg : string).

Definition result (A : Type) : Type := (exn + A)%type.

Definition M (St A : Type) : Type := St -> St * result A.

Definition ret {St A} (a : A) : M St A := fun st => (st, inr a).

Definition raise {St A} (e : exn) : M St A := fun st => (st, inl e).

Definition bind {St A B} (c : M St A) (k : A -> M St B) : M St B :=
  fun st =>
    match c st with
    | (st', inr a) => k a st'
    | (st', inl e) => (st', inl e)
    end.

Definition lift {St A} (r : result A) : M St A := fun st => (st, r).

Definition gets {St A} (f : St -> A) : M St A := fun st => (st, inr (f st)).

Definition modify {St} (f : St -> St) : M St unit := fun st => (f st, inr tt).

Declare Scope py_scope.
Delimit Scope py_scope with py.
Notation "x <- c ;; k" := (bind c (fun x => k))
  (at level 61, c at next level, right associativity) : py_scope.
Notation "c ;; k" := (bind c (fun _ => k))
  (at level 61, right associativity) : py_scope.

(** [for x in xs: body(x)] *)
Fixpoint for_each {St A} (xs : list A) (body : A -> M St unit) : M St unit :=
  match xs with
  | [] => ret tt
  | x :: rest => bind (body x) (fun _ => for_each rest body)
  end.

(** ** Matrices and vectors (numpy arrays of fixed shape) *)

Module LinAlg.
Local Open Scope R_scope.

Record vec3 : Type := V3 { vx : R; vy : R; vz : R }.

Record vec4 : Type := V4 { wx : R; wy : R; wz : R; ww : R }.

(** A 3x3 array, by rows. *)
Record mat3 : Type := M3 { row0 : vec3; row1 : vec3; row2 : vec3 }.

(** A 4x4 array in blocks: [m[:3, :3]], [m[:3, 3]] and the row [m[3, :]]. *)
Record mat4 : Type := M4 { rot : mat3; trans : vec3; bottom : vec4 }.

Definition dot3 (a b : vec3) : R := vx a * vx b + vy a * vy b + vz a * vz b.

Definition col0 (m : mat3) : vec3 := V3 (vx (row0 m)) (vx (row1 m)) (vx (row2 m)).
Definition col1 (m : mat3) : vec3 := V3 (vy (row0 m)) (vy (row1 m)) (vy (row2 m)).
Definition col2 (m : mat3) : vec3 := V3 (vz (row0 m)) (vz (row1 m)) (vz (row2 m)).

(** [m.T] *)
Definition transpose (m : mat3) : mat3 := M3 (col0 m) (col1 m) (col2 m).

Definition row_times (r : vec3) (b : mat3) : vec3 :=
  V3 (dot3 r (col0 b)) (dot3 r (col1 b)) (dot3 r (col2 b)).

(** [a.dot(b)] for two 3x3 arrays *)
Definition mdot (a b : mat3) : mat3 :=
  M3 (row_times (row0 a) b) (row_times (row1 a) b) (row_times (row2 a) b).

(** [m.dot(v)] for a 3x3 array and a 3-vector *)
Definition mvec (m : mat3) (v : vec3) : vec3 :=
  V3 (dot3 (row0 m) v) (dot3 (row1 m) v) (dot3 (row2 m) v).

Definition vadd (a b : vec3) : vec3 := V3 (vx a + vx b) (vy a + vy b) (vz a + vz b).

(** elementwise product of two 3-vectors (numpy broadcasting of [v * scale]) *)
Definition vmul (a b : vec3) : vec3 := V3 (vx a * vx b) (vy a * vy b) (vz a * vz b).

Definition eye3 : mat3 := M3 (V3 1 0 0) (V3 0 1 0) (V3 0 0 1).

(** [np.linalg.norm(v)] of a 3-vector: [sqrt(dot(v, v))] *)
Definition norm (v : vec3) : R := sqrt (dot3 v v).

(** [np.deg2rad(x)] *)
Definition deg2rad (x : R) : R := x * (PI / 180).

(** [pytransform3d.rotations.active_matrix_from_angle(basis, angle)]:
    the active rotation about the basis vector number [basis]. *)
Definition active_matrix_from_angle (basis : Z) (angle : R) : result mat3 :=
  let c := cos angle in
  let s := sin angle in
  if (basis =? 0)%Z then
    inr (M3 (V3 1 0 0) (V3 0 c (- s)) (V3 0 s c))
  else if (basis =? 1)%Z then
    inr (M3 (V3 c 0 s) (V3 0 1 0) (V3 (- s) 0 c))
  else if (basis =? 2)%Z then
    inr (M3 (V3 c (- s) 0) (V3 s c 0) (V3 0 0 1))
  else inl (ValueError "Basis must be in [0, 1, 2]").

(** [pytransform3d.transformations.transform_from(R, p)]: the homogeneous
    matrix with rotation block [R], translation column [p] and last row
    [0, 0, 0, 1].  (The library also validates that [R] is a rotation
    matrix; [view_init_rotation_orthonormal] below shows the matrix that
    [view_init] passes is one.) *)
Definition transform_from (R : mat3) (p : vec3) : mat4 :=
  M4 R p (V4 0 0 0 1).

(** [T(v)]: a homogeneous transform applied to a point *)
Definition transform_point (T : mat4) (v : vec3) : vec3 :=
  vadd (mvec (rot T) v) (trans T).

End LinAlg.
Export LinAlg.

(** ** The viewer: geometry, the Open3D visualizer, the Python world *)

(** [o3d.geometry.TriangleMesh] as far as this module touches it. *)
Record TriangleMesh : Type := mkMesh
  { vertices : list vec3;
    triangles : list (Z * Z * Z);
    vertex_colors : list vec3 }.

Inductive Geometry : Type :=
| LineSet (points : list vec3) (lines : list (Z * Z)) (colors : list vec3)
  (** [TriangleMesh.create_coordinate_frame(size)] after [transform(pose)] *)
| CoordinateFrame (size : R) (pose : mat4)
| Mesh3d (mesh : TriangleMesh).

(** [o3d.visualization.Visualizer]: the geometries handed over by
    [add_geometry], in call order, the extrinsic of the view control's
    pinhole camera parameters, and the render option's line width. *)
Record Visualizer : Type := mkVis
  { geometries : list Geometry;
    extrinsic : mat4;
    line_width : R }.

(** What the module can change: the figure's visualizer, standard output
    ([print]) and the warnings issued ([warnings.warn]). *)
Record World : Type := mkWorld
  { visualizer : Visualizer;
    stdout : list string;
    warned : list string }.

Definition with_visualizer (f : Visualizer -> Visualizer) (w : World) : World :=
  mkWorld (f (visualizer w)) (stdout w) (warned w).

Definition print (msg : string) : M World unit :=
  modify (fun w => mkWorld (visualizer w) (stdout w ++ [msg]) (warned w)).

Definition warn (msg : string) : M World unit :=
  modify (fun w => mkWorld (visualizer w) (stdout w) (warned w ++ [msg])).

Module Figure.
Local Open Scope py_scope.
Local Open Scope R_scope.

(** [Figure.add_geometry] *)
Definition add_geometry (g : Geometry) : M World unit :=
  modify (with_visualizer
    (fun v => mkVis (geometries v ++ [g]) (extrinsic v) (line_width v))).

(** [Figure.set_line_width] *)
Definition set_line_width (lw : R) : M World unit :=
  modify (with_visualizer
    (fun v => mkVis (geometries v) (extrinsic v) lw)).

(** [vc.convert_to_pinhole_camera_parameters().extrinsic] *)
Definition get_extrinsic : M World mat4 :=
  gets (fun w => extrinsic (visualizer w)).

(** [pcp.extrinsic = E; vc.convert_from_pinhole_camera_parameters(pcp)] *)
Definition set_extrinsic (E : mat4) : M World unit :=
  modify (with_visualizer
    (fun v => mkVis (geometries v) E (line_width v))).

Definition R_azim_elev_0_world2camera : mat3 :=
  M3 (V3 0 1 0) (V3 0 0 (-1)) (V3 (-1) 0 0).

(** [Figure.view_init(azim, elev)] *)
Definition view_init (azim elev : R) : M World unit :=
  pcp_extrinsic <- get_extrinsic ;;
  let distance := norm (trans pcp_extrinsic) in
  let R_azim_elev_0_camera2world := transpose R_azim_elev_0_world2camera in
  R_azim <- lift (active_matrix_from_angle 2 (deg2rad azim)) ;;
  R_elev <- lift (active_matrix_from_angle 1 (deg2rad (- elev))) ;;
  let R_elev_azim_camera2world :=
    mdot (mdot R_azim R_elev) R_azim_elev_0_camera2world in
  set_extrinsic
    (transform_from (transpose R_elev_azim_camera2world) (V3 0 0 distance)).

(** the defaults [azim=-60, elev=30] *)
Definition view_init_default : M World unit := view_init (-60) 30.

End Figure.

(** ** numpy helpers used by the trajectory builder *)

Module Numpy.

(** [np.arange(start, stop)] on integers; empty when [stop <= start]. *)
Definition arange (start stop : Z) : list Z :=
  map (fun k => (start + Z.of_nat k)%Z) (seq 0 (Z.to_nat (stop - start))).

(** [np.hstack((a[:, np.newaxis], b[:, np.newaxis]))]: two columns side by
    side; numpy refuses columns of different lengths. *)
Definition hstack_columns (a b : list Z) : result (list (Z * Z)) :=
  if Nat.eqb (List.length a) (List.length b) then inr (combine a b)
  else inl (ValueError "all the input array dimensions must match exactly").

(** [y[-1] = x] on a non-empty array *)
Definition set_last {A} (y : list A) (x : A) : list A :=
  match y with
  | [] => []
  | _ :: _ => removelast y ++ [x]
  end.

(** Conversion of a float to an integer drops the fractional part
    (rounding toward zero). *)
Definition trunc (q : Q) : Z := Z.quot (Qnum q) (Zpos (Qden q)).

(** [y.astype(int)] *)
Definition astype_int (y : list Q) : list Z := map trunc y.

(** [np.linspace(start, stop, num)] (endpoint=True), before the cast; the
    samples are exact rationals, the rounding of float64 is not modelled. *)
Definition linspace (start stop : Q) (num : Z) : result (list Q) :=
  if (num <? 0)%Z then
    inl (ValueError "Number of samples must be non-negative.")
  else
    let div := (num - 1)%Z in
    let delta := (stop - start)%Q in
    let y := map inject_Z (arange 0 num) in
    let y :=
      if (0 <? div)%Z then
        let step := (delta / inject_Z div)%Q in
        if Qeq_bool step 0 then
          map (fun v => ((v / inject_Z div) * delta)%Q) y
        else
          map (fun v => (v * step)%Q) y
      else map (fun v => (v * delta)%Q) y in
    let y := map (fun v => (v + start)%Q) y in
    let y := if (1 <? num)%Z then set_last y stop else y in
    inr y.

(** [np.linspace(start, stop, num, dtype=np.int)] with integer bounds *)
Definition linspace_int (start stop num : Z) : result (list Z) :=
  match linspace (inject_Z start) (inject_Z stop) num with
  | inl e => inl e
  | inr y => inr (astype_int y)
  end.

(** [a[i]] for a Python integer [i]: negative indices count from the end,
    anything else out of range raises [IndexError]. *)
Definition getitem {A} (a : list A) (i : Z) : result A :=
  let n := Z.of_nat (List.length a) in
  let j := if (i <? 0)%Z then (i + n)%Z else i in
  if ((0 <=? j)%Z && (j <? n)%Z)%bool then
    match nth_error a (Z.to_nat j) with
    | Some x => inr x
    | None => inl (IndexError "index out of bounds")
    end
  else inl (IndexError "index out of bounds").

End Numpy.

(** ** class Frame *)

Module Frame.
Local Open Scope py_scope.

Record t : Type := mk { A2B : mat4; label : option string; s : R }.

(** [Frame.__init__(A2B, label=None, s=1.0)] *)
Definition init (A2B : mat4) (label : option string) (s : R) : M World t :=
  match label with
  | Some _ =>
      warn "This viewer does not support text. Frame label will be ignored."
  | None => ret tt
  end ;;
  ret (mk A2B label s).

(** [Frame.set_data(A2B, label=None)]; the state is the object itself and
    the world around it. *)
Definition set_data (A2B : mat4) (label : option string) : M (t * World) unit :=
  raise NotImplementedError.

(** [Frame.add_frame(figure)] *)
Definition add_frame (self : t) : M World unit :=
  Figure.add_geometry (CoordinateFrame (s self) (A2B self)).

End Frame.

(** ** class Trajectory *)

Module Trajectory.
Local Open Scope py_scope.

Record t : Type := mk
  { H : list mat4;
    show_direction : bool;
    n_frames : Z;
    s : R;
    c : vec3 }.

(** [Trajectory.set_data(H, label=None)] *)
Definition set_data (H' : list mat4) (label : option string) : M (t * World) unit :=
  raise NotImplementedError.

(** [len(self.H) - 1] *)
Definition last_index (self : t) : Z := (Z.of_nat (List.length (H self)) - 1)%Z.

(** the line set built in the first half of [add_trajectory] *)
Definition line_set (self : t) : result Geometry :=
  let points := map trans (H self) in
  let n := Z.of_nat (List.length points) in
  match Numpy.hstack_columns (Numpy.arange 0 (n - 1)) (Numpy.arange 1 n) with
  | inl e => inl e
  | inr lines =>
      let colors := map (fun _ => c self) (seq 0 (List.length lines)) in
      inr (LineSet points lines colors)
  end.

(** [key_frames_indices] *)
Definition key_frames_indices (self : t) : result (list Z) :=
  Numpy.linspace_int 0 (last_index self) (n_frames self).

(** [Trajectory.add_trajectory(figure)] *)
Definition add_trajectory (self : t) : M World unit :=
  ls <- lift (line_set self) ;;
  Figure.add_geometry ls ;;
  idxs <- lift (key_frames_indices self) ;;
  for_each idxs (fun key_frame_idx =>
    pose <- lift (Numpy.getitem (H self) key_frame_idx) ;;
    frame <- Frame.init pose None (s self) ;;
    Frame.add_frame frame).

End Trajectory.

(** ** Module level plotting functions *)

(** One row of the [(n, 7)] array [P]: position and quaternion. *)
Record PosQuat : Type := mkPQ { pos : vec3; quat : vec4 }.

Section Plotting.

(** [pytransform3d.rotations.matrix_from_quaternion], an external
    collaborator of which nothing is assumed. *)
Variable matrix_from_quaternion : vec4 -> mat3.

Local Open Scope py_scope.

(** [pytransform3d.trajectories.matrices_from_pos_quat(P)]: per row, the
    position as translation and the quaternion's rotation matrix. *)
Definition matrices_from_pos_quat (P : list PosQuat) : list mat4 :=
  map (fun pq => transform_from (matrix_from_quaternion (quat pq)) (pos pq)) P.

(** [assert cond, msg] *)
Definition assert_ {St} (cond : bool) (msg : string) : M St unit :=
  if cond then ret tt else raise (AssertionError msg).

Definition default {A} (d : A) (o : option A) : A :=
  match o with Some a => a | None => d end.

(** [plot_basis(figure, R, p=np.zeros(3), s=1.0)] *)
Definition plot_basis (R' : mat3) (p : option vec3) (s : option R) : M World unit :=
  let A2B := transform_from R' (default (V3 0 0 0) p) in
  frame <- Frame.init A2B None (default 1%R s) ;;
  Frame.add_frame frame.

(** [plot_trajectory(figure, P, show_direction=True, n_frames=10, s=1.0,
    c=[0, 0, 0])]; an argument left out is [None] here. *)
Definition plot_trajectory (P : list PosQuat) (show_direction : option bool)
    (n_frames : option Z) (s : option R) (c : option vec3) : M World unit :=
  let show_direction := default true show_direction in
  let n_frames := default 10%Z n_frames in
  let s := default 1%R s in
  let c := default (V3 0 0 0) c in
  let H := matrices_from_pos_quat P in
  assert_ (negb show_direction) "not implemented yet" ;;
  let trajectory := Trajectory.mk H show_direction n_frames s c in
  Trajectory.add_trajectory trajectory.

End Plotting.

(** ** URDF projection *)

Module Urdf.
Local Open Scope py_scope.

(** The geometry classes of [pytransform3d.urdf]. *)
Inductive shape : Type :=
| Box (size : vec3)
| Sphere (radius : R)
| Cylinder (radius length : R)
| Mesh (filename : string) (scale : vec3).

Record object : Type := mkObject
  { geometry : shape;
    frame : string;
    mesh_path : option string }.

(** [UrdfTransformManager] as this module reads it; an attribute that the
    object does not have ([hasattr] false) is [None]. *)
Record TransformManager : Type := mkTM
  { collision_objects : option (list object);
    visuals : option (list object);
    nodes : list string;
    get_transform : string -> string -> result mat4 }.

Section Show.

(** [o3d.io.read_triangle_mesh], an external collaborator. *)
Variable read_triangle_mesh : string -> TriangleMesh.

(** [mesh_show]; [filename] and [scale] are those of the mesh [self]. *)
Definition mesh_show (self : object) (filename : string) (scale : vec3)
    (tm : TransformManager) (frame' : string) (c : option vec3) : M World unit :=
  match mesh_path self with
  | None => print "No mesh path given"
  | Some _ =>
      A2B <- lift (get_transform tm (frame self) frame') ;;
      let mesh := read_triangle_mesh filename in
      let scaled := map (fun v => vmul v scale) (vertices mesh) in
      let moved := map (transform_point A2B) scaled in
      let colors :=
        match c with
        | Some c => map (fun _ => c) moved
        | None => vertex_colors mesh
        end in
      Figure.add_geometry (Mesh3d (mkMesh moved (triangles mesh) colors))
  end.

(** [obj.show(figure, tm, frame, c)]: [box_show], [sphere_show],
    [cylinder_show] and [mesh_show] attached to the four classes. *)
Definition show (self : object) (tm : TransformManager) (frame' : string)
    (c : option vec3) : M World unit :=
  match geometry self with
  | Box _ => raise NotImplementedError
  | Sphere _ => raise NotImplementedError
  | Cylinder _ _ => raise NotImplementedError
  | Mesh filename scale => mesh_show self filename scale tm frame' c
  end.

(** [_add_objects] *)
Definition _add_objects (tm : TransformManager) (objects : list object)
    (frame' : string) (c : option vec3) : M World unit :=
  for_each objects (fun obj => show obj tm frame' c).

(** [_add_frame] *)
Definition _add_frame (tm : TransformManager) (from_frame to_frame : string)
    (whitelist : option (list string)) (s : R) : M World unit :=
  let skip :=
    match whitelist with
    | Some wl => negb (existsb (String.eqb from_frame) wl)
    | None => false
    end in
  if skip then ret tt
  else
    A2B <- lift (get_transform tm from_frame to_frame) ;;
    frame <- Frame.init A2B None s ;;
    Frame.add_frame frame.

(** [show_urdf_transform_manager] *)
Definition show_urdf_transform_manager (tm : TransformManager) (frame' : string)
    (collision_objects' visuals' frames : bool)
    (whitelist : option (list string)) (s : R) (c : option vec3) : M World unit :=
  (if collision_objects' then
     match collision_objects tm with
     | Some objs => _add_objects tm objs frame' c
     | None => ret tt
     end
   else ret tt) ;;
  (if visuals' then
     match visuals tm with
     | Some objs => _add_objects tm objs frame' c
     | None => ret tt
     end
   else ret tt) ;;
  (if frames then
     for_each (nodes tm) (fun node => _add_frame tm node frame' whitelist s)
   else ret tt).

End Show.
End Urdf.

(** ** Auxiliary vocabulary for the statements *)

(** the world after the geometries [gs] were added to the figure, in order *)
Definition add_geometries (w : World) (gs : list Geometry) : World :=
  with_visualizer
    (fun v => mkVis (geometries v ++ gs) (extrinsic v) (line_width v)) w.

(** the world after [print(msg)] *)
Definition printed (w : World) (msg : string) : World :=
  mkWorld (visualizer w) (stdout w ++ [msg]) (warned w).

Definition is_frame (g : Geometry) : Prop :=
  match g with
  | CoordinateFrame _ _ => True
  | _ => False
  end.

(** the identity transform, [np.eye(4)] *)
Definition eye4 : mat4 := transform_from eye3 (V3 0 0 0).

(** [H[i]] for an index known to be in range *)
Definition pose_at (H : list mat4) (i : Z) : mat4 := nth (Z.to_nat i) H eye4.

(** the determinant of a 3x3 array *)
Definition det3 (m : mat3) : R :=
  (vx (row0 m) * (vy (row1 m) * vz (row2 m) - vz (row1 m) * vy (row2 m))
   - vy (row0 m) * (vx (row1 m) * vz (row2 m) - vz (row1 m) * vx (row2 m))
   + vz (row0 m) * (vx (row1 m) * vy (row2 m) - vy (row1 m) * vx (row2 m)))%R.

(** The position of the camera in world coordinates for a world-to-camera
    extrinsic [[R | t]]: [- R^T t]. *)
Definition camera_center (E : mat4) : vec3 :=
  mvec (transpose (rot E))
       (V3 (- vx (trans E))%R (- vy (trans E))%R (- vz (trans E))%R).

(** [node] passes the whitelist of [_add_frame]: there is none, or it
    contains the node *)
Definition whitelisted (whitelist : option (list string)) (node : string) : bool :=
  match whitelist with
  | Some wl => existsb (String.eqb node) wl
  | None => true
  end.

(** a shape whose [show] is not implemented: box, sphere or cylinder *)
Definition unsupported (o : Urdf.object) : bool :=
  match Urdf.geometry o with
  | Urdf.Mesh _ _ => false
  | _ => true
  end.

(** ** Concrete inputs for the examples *)

Module Examples.

(** a fresh figure: nothing added, camera at distance 5 *)
Definition w0 : World :=
  mkWorld (mkVis [] (transform_from eye3 (V3 0 0 5)) 1) [] [].

Definition pose_x (x : R) : mat4 := transform_from eye3 (V3 x 0 0).

(** three poses along the x axis, four key frames requested *)
Definition three_poses : Trajectory.t :=
  Trajectory.mk [pose_x 0; pose_x 1; pose_x 2] false 4 1 (V3 0 0 0).

(** a single pose, two key frames requested *)
Definition one_pose : Trajectory.t :=
  Trajectory.mk [pose_x 0] false 2 1 (V3 0 0 0).

(** one row of [P]: the origin with the identity quaternion *)
Definition pq0 : PosQuat := mkPQ (V3 0 0 0) (V4 1 0 0 0).

(** a stand-in for [matrix_from_quaternion] *)
Definition mfq0 : vec4 -> mat3 := fun _ => eye3.

(** a stand-in for [o3d.io.read_triangle_mesh]: one triangle *)
Definition read0 : string -> TriangleMesh :=
  fun _ => mkMesh [V3 0 0 0; V3 1 0 0; V3 0 1 0] [(0, 1, 2)%Z] [].

(** a transform manager without the attributes [collision_objects] and
    [visuals], and without nodes *)
Definition tm_bare : Urdf.TransformManager :=
  Urdf.mkTM None None [] (fun _ _ => inl (KeyError "unknown frame")).

(** a mesh for which no mesh path was configured *)
Definition mesh_no_path : Urdf.object :=
  Urdf.mkObject (Urdf.Mesh "part.stl" (V3 1 1 1)) "link" None.

(** a transform manager whose only visual is that mesh *)
Definition tm_mesh : Urdf.TransformManager :=
  Urdf.mkTM None (Some [mesh_no_path]) []
            (fun _ _ => inl (KeyError "unknown frame")).

(** a box as collision object *)
Definition box_object : Urdf.object :=
  Urdf.mkObject (Urdf.Box (V3 1 1 1)) "link" None.

(** a transform manager with the nodes "a" and "b"; only "a" has a
    transform to the reference frame; its collision objects are a mesh
    without mesh path and a box *)
Definition tm_two_nodes : Urdf.TransformManager :=
  Urdf.mkTM (Some [mesh_no_path; box_object]) None ["a"; "b"]%string
    (fun from _ =>
       if String.eqb from "a" then inr (pose_x 1)
       else inl (KeyError "unknown frame")).

(** a mesh with a mesh path, attached to the node "a" *)
Definition mesh_with_path : Urdf.object :=
  Urdf.mkObject (Urdf.Mesh "part.stl" (V3 2 2 2)) "a" (Some "meshes/"%string).

(** three poses, one key frame requested per pose *)
Definition three_poses_all : Trajectory.t :=
  Trajectory.mk [pose_x 0; pose_x 1; pose_x 2] false 3 1 (V3 0 0 0).

(** two poses with two key frames, and with a negative number of them *)
Definition three_poses_two : Trajectory.t :=
  Trajectory.mk [pose_x 0; pose_x 1; pose_x 2] false 2 1 (V3 0 0 0).

Definition two_poses : Trajectory.t :=
  Trajectory.mk [pose_x 0; pose_x 1] false 2 1 (V3 0 0 0).

Definition two_poses_negative : Trajectory.t :=
  Trajectory.mk [pose_x 0; pose_x 1] false (-1) 1 (V3 0 0 0).

End Examples.

(** ** The specification's vocabulary

    These definitions follow the words of the specification, not the
    code; the theorems of Part II compare the two. *)

Module Spec.
Local Open Scope R_scope.

Inductive axis : Type := AxisX | AxisY | AxisZ.

Definition axis_vector (a : axis) : vec3 :=
  match a with
  | AxisX => V3 1 0 0
  | AxisY => V3 0 1 0
  | AxisZ => V3 0 0 1
  end.

(** [K v = k x v], the cross product with [k] as a matrix *)
Definition cross_matrix (k : vec3) : mat3 :=
  M3 (V3 0 (- vz k) (vy k)) (V3 (vz k) 0 (- vx k)) (V3 (- vy k) (vx k) 0).

Definition vscale (a : R) (v : vec3) : vec3 := V3 (a * vx v) (a * vy v) (a * vz v).

Definition mscale (a : R) (m : mat3) : mat3 :=
  M3 (vscale a (row0 m)) (vscale a (row1 m)) (vscale a (row2 m)).

Definition madd (a b : mat3) : mat3 :=
  M3 (vadd (row0 a) (row0 b)) (vadd (row1 a) (row1 b)) (vadd (row2 a) (row2 b)).

(** Active rotation about a principal axis by the right-hand rule, through
    Rodrigues' formula [I + sin(t) K + (1 - cos(t)) K^2]. *)
Definition rotation_about_axis (a : axis) (angle : R) : mat3 :=
  let K := cross_matrix (axis_vector a) in
  madd (madd eye3 (mscale (sin angle) K)) (mscale (1 - cos angle) (mdot K K)).

(** matrix product [A . B] *)
Definition compose_rotations (A B : mat3) : mat3 := mdot A B.

(** the 4x4 rigid transform with rotation [R] and translation [p] *)
Definition compose (R : mat3) (p : vec3) : mat4 := M4 R p (V4 0 0 0 1).

Definition radians (degrees : R) : R := degrees * PI / 180.

(** the fixed reference world-to-camera matrix of the claim *)
Definition R0_world_to_camera : mat3 :=
  M3 (V3 0 1 0) (V3 0 0 (-1)) (V3 (-1) 0 0).

Definition R0_camera_to_world : mat3 := transpose R0_world_to_camera.

(** steps 2 to 5 of the orbit, for a camera at distance [distance] *)
Definition orbit_at_distance (distance azimuth elevation : R) : mat4 :=
  let R_azimuth := rotation_about_axis AxisZ (radians azimuth) in
  let R_elevation := rotation_about_axis AxisY (radians (- elevation)) in
  let R_final_camera_to_world :=
    compose_rotations (compose_rotations R_azimuth R_elevation) R0_camera_to_world in
  compose (transpose R_final_camera_to_world) (V3 0 0 distance).

(** [orbit(current_extrinsic, azimuth_deg, elevation_deg)] *)
Definition orbit (current_extrinsic : mat4) (azimuth elevation : R) : mat4 :=
  orbit_at_distance (norm (trans current_extrinsic)) azimuth elevation.



End Spec.

(** Successful completion of a run, and the state it leaves. *)
Definition succeeds {St A} (out : St * result A) : Prop :=
  exists a, snd out = inr a.

(* ===================================================================== *)
(** * Part II: theorems                                                   *)
(* ===================================================================== *)

(** ** Rotations and the camera orbit *)

Section Camera.
Local Open Scope R_scope.

Lemma vec3_eq (a b c a' b' c' : R) :
  a = a' -> b = b' -> c = c' -> V3 a b c = V3 a' b' c'.
Proof. intros -> -> ->. reflexivity. Qed.

Lemma mat3_eq (a b c a' b' c' : vec3) :
  a = a' -> b = b' -> c = c' -> M3 a b c = M3 a' b' c'.
Proof. intros -> -> ->. reflexivity. Qed.

Ltac mat_ring :=
  cbv [Spec.rotation_about_axis Spec.cross_matrix Spec.axis_vector Spec.madd
       Spec.mscale Spec.vscale mdot row_times dot3 col0 col1 col2 transpose
       vadd eye3 row0 row1 row2 vx vy vz];
  apply mat3_eq; apply vec3_eq; ring.

(** The library's closed forms are the right-handed rotations. *)
Lemma active_matrix_about_z (angle : R) :
  active_matrix_from_angle 2 angle = inr (Spec.rotation_about_axis Spec.AxisZ angle).
Proof. unfold active_matrix_from_angle; simpl. f_equal. symmetry. mat_ring. Qed.

Lemma active_matrix_about_y (angle : R) :
  active_matrix_from_angle 1 angle = inr (Spec.rotation_about_axis Spec.AxisY angle).
Proof. unfold active_matrix_from_angle; simpl. f_equal. symmetry. mat_ring. Qed.

Lemma active_matrix_about_x (angle : R) :
  active_matrix_from_angle 0 angle = inr (Spec.rotation_about_axis Spec.AxisX angle).
Proof. unfold active_matrix_from_angle; simpl. f_equal. symmetry. mat_ring. Qed.

Lemma deg2rad_radians (x : R) : deg2rad x = Spec.radians x.
Proof. unfold deg2rad, Spec.radians. field. Qed.

(** What one call of [view_init] does to the world: it always returns, and
    only the extrinsic changes. *)
Lemma view_init_run (w : World) (azim elev : R) :
  Figure.view_init azim elev w =
    (mkWorld
       (mkVis (geometries (visualizer w))
              (Spec.orbit (extrinsic (visualizer w)) azim elev)
              (line_width (visualizer w)))
       (stdout w) (warned w),
     inr tt).
Proof.
  unfold Figure.view_init, bind, Figure.get_extrinsic, gets, lift.
  rewrite active_matrix_about_z, active_matrix_about_y.
  rewrite !deg2rad_radians.
  reflexivity.
Qed.

Lemma norm_nonneg (v : vec3) : 0 <= norm v.
Proof. apply sqrt_pos. Qed.

Lemma norm_along_z (d : R) : 0 <= d -> norm (V3 0 0 d) = d.
Proof.
  intros Hd. unfold norm, dot3; simpl.
  replace (0 * 0 + 0 * 0 + d * d) with (d * d) by ring.
  apply sqrt_square, Hd.
Qed.

(** The translation written by an orbit is [[0, 0, distance]]. *)
Lemma orbit_trans (E : mat4) (azim elev : R) :
  trans (Spec.orbit E azim elev) = V3 0 0 (norm (trans E)).
Proof. reflexivity. Qed.

Lemma orbit_norm (E : mat4) (azim elev : R) :
  norm (trans (Spec.orbit E azim elev)) = norm (trans E).
Proof. rewrite orbit_trans. apply norm_along_z, norm_nonneg. Qed.

(** An orbit from an orbited extrinsic, with any angles, is the orbit from
    the original one with those angles. *)
Lemma orbit_absorbs (E : mat4) (az el az' el' : R) :
  Spec.orbit (Spec.orbit E az el) az' el' = Spec.orbit E az' el'.
Proof. unfold Spec.orbit at 1 3. rewrite orbit_norm. reflexivity. Qed.

(** The rotation block handed to [transform_from] is a rotation matrix:
    its product with its transpose is the identity. *)
Lemma view_init_rotation_orthonormal (E : mat4) (azim elev : R) :
  let Rw2c := rot (Spec.orbit E azim elev) in
  mdot Rw2c (transpose Rw2c) = eye3.
Proof.
  cbv zeta. unfold Spec.orbit, Spec.orbit_at_distance, Spec.compose.
  cbn [rot]. unfold Spec.compose_rotations.
  cbv [Spec.rotation_about_axis Spec.cross_matrix Spec.axis_vector Spec.madd
       Spec.mscale Spec.vscale Spec.R0_camera_to_world Spec.R0_world_to_camera
       mdot row_times dot3 col0 col1 col2 transpose
       vadd eye3 row0 row1 row2 vx vy vz].
  generalize (sin2_cos2 (Spec.radians azim)).
  generalize (sin2_cos2 (Spec.radians (- elev))).
  generalize (sin (Spec.radians azim)) (cos (Spec.radians azim))
             (sin (Spec.radians (- elev))) (cos (Spec.radians (- elev))).
  intros sa ca se ce He Ha. unfold Rsqr in He, Ha.
  apply mat3_eq; apply vec3_eq; nsatz.
Qed.

(** C1: [view_init] returns normally and leaves in the visualizer the
    extrinsic [compose(R, p)] with
    [R = (R_azim . R_elev . R0_camera2world)^T] and [p = [0, 0, distance]],
    where [distance] is the norm of the translation of the extrinsic read,
    [R_azim] is the right-handed rotation about Z by [azim] in radians,
    [R_elev] the right-handed rotation about Y by minus [elev] in radians,
    and [R0_camera2world] is the transpose of
    [[[0,1,0],[0,0,-1],[-1,0,0]]]: it sends the camera's third axis to
    world -X, its first axis to world +Y and its second axis to world -Z. *)
Theorem view_init_writes_orbit_extrinsic (w : World) (azim elev : R) :
  let E := extrinsic (visualizer w) in
  let distance := norm (trans E) in
  let a := azim * PI / 180 in
  let e := (- elev) * PI / 180 in
  let R_azim := Spec.rotation_about_axis Spec.AxisZ a in
  let R_elev := Spec.rotation_about_axis Spec.AxisY e in
  let R0_camera2world := transpose (M3 (V3 0 1 0) (V3 0 0 (-1)) (V3 (-1) 0 0)) in
  let out := Figure.view_init azim elev w in
  snd out = inr tt /\
  extrinsic (visualizer (fst out)) =
    Spec.compose (transpose (mdot (mdot R_azim R_elev) R0_camera2world))
                 (V3 0 0 distance) /\
  R_azim = M3 (V3 (cos a) (- sin a) 0) (V3 (sin a) (cos a) 0) (V3 0 0 1) /\
  R_elev = M3 (V3 (cos e) 0 (sin e)) (V3 0 1 0) (V3 (- sin e) 0 (cos e)) /\
  mvec R0_camera2world (V3 0 0 1) = V3 (-1) 0 0 /\
  mvec R0_camera2world (V3 1 0 0) = V3 0 1 0 /\
  mvec R0_camera2world (V3 0 1 0) = V3 0 0 (-1).
Proof.
  cbv zeta. rewrite view_init_run. cbn [fst snd visualizer extrinsic].
  repeat split.
  - mat_ring.
  - mat_ring.
  - cbv [mvec transpose col0 col1 col2 dot3 row0 row1 row2 vx vy vz].
    apply vec3_eq; ring.
  - cbv [mvec transpose col0 col1 col2 dot3 row0 row1 row2 vx vy vz].
    apply vec3_eq; ring.
  - cbv [mvec transpose col0 col1 col2 dot3 row0 row1 row2 vx vy vz].
    apply vec3_eq; ring.
Qed.

(** C3: the norm of the translation of the extrinsic that [view_init]
    writes back equals the norm of the translation of the extrinsic it
    read, for all angles. *)
Theorem view_init_preserves_distance (w : World) (azim elev : R) :
  norm (trans (extrinsic (visualizer (fst (Figure.view_init azim elev w))))) =
  norm (trans (extrinsic (visualizer w))).
Proof.
  rewrite view_init_run. cbn [fst visualizer extrinsic]. apply orbit_norm.
Qed.

(** C4: two calls of [view_init(0, 0)] in succession leave the same
    extrinsic (indeed the same world) as one call; both return normally,
    and the extrinsic is the re-pose at the current translation norm:
    rotation block [[[0,1,0],[0,0,-1],[-1,0,0]]], translation
    [[0, 0, distance]]. *)
Theorem view_init_zero_twice (w : World) :
  let out1 := Figure.view_init 0 0 w in
  let out2 := Figure.view_init 0 0 (fst out1) in
  snd out1 = inr tt /\ snd out2 = inr tt /\
  extrinsic (visualizer (fst out2)) = extrinsic (visualizer (fst out1)) /\
  fst out2 = fst out1 /\
  extrinsic (visualizer (fst out1)) =
    Spec.orbit_at_distance (norm (trans (extrinsic (visualizer w)))) 0 0 /\
  extrinsic (visualizer (fst out1)) =
    M4 (M3 (V3 0 1 0) (V3 0 0 (-1)) (V3 (-1) 0 0))
       (V3 0 0 (norm (trans (extrinsic (visualizer w)))))
       (V4 0 0 0 1).
Proof.
  cbv zeta. rewrite !view_init_run. cbn [fst snd visualizer extrinsic geometries
    line_width stdout warned].
  rewrite orbit_absorbs.
  repeat split.
  unfold Spec.orbit, Spec.orbit_at_distance, Spec.compose, Spec.compose_rotations.
  f_equal.
  assert (Ha : Spec.radians 0 = 0) by (unfold Spec.radians; field).
  assert (He : Spec.radians (- 0) = 0) by (unfold Spec.radians; field).
  rewrite Ha, He.
  cbv [Spec.rotation_about_axis Spec.cross_matrix Spec.axis_vector Spec.madd
       Spec.mscale Spec.vscale Spec.R0_camera_to_world Spec.R0_world_to_camera
       mdot row_times dot3 col0 col1 col2 transpose
       vadd eye3 row0 row1 row2 vx vy vz].
  rewrite sin_0, cos_0.
  apply mat3_eq; apply vec3_eq; ring.
Qed.

End Camera.

(** ** numpy: [arange], [linspace] and indexing *)

Section NumpyFacts.
Import Numpy.
Local Open Scope Z_scope.

Lemma arange_length (a b : Z) : List.length (arange a b) = Z.to_nat (b - a).
Proof. unfold arange. now rewrite length_map, length_seq. Qed.

Lemma arange_bounds (a b i : Z) : In i (arange a b) -> a <= i < b.
Proof.
  unfold arange. rewrite in_map_iff. intros (k & <- & Hk).
  apply in_seq in Hk. lia.
Qed.

Lemma arange_snoc (n : Z) :
  1 <= n -> arange 0 n = arange 0 (n - 1) ++ [n - 1].
Proof.
  intros Hn. unfold arange.
  replace (Z.to_nat (n - 0)) with (Z.to_nat (n - 1 - 0) + 1)%nat by lia.
  rewrite seq_app, map_app. simpl. do 2 f_equal. lia.
Qed.

Lemma arange_cons (n : Z) :
  1 <= n -> exists rest, arange 0 n = 0 :: rest.
Proof.
  intros Hn. unfold arange.
  destruct (Z.to_nat (n - 0)) eqn:E; [lia|].
  simpl. eexists. reflexivity.
Qed.

Lemma set_last_snoc {A} (l : list A) (a x : A) : set_last (l ++ [a]) x = l ++ [x].
Proof.
  unfold set_last. destruct (l ++ [a]) eqn:E.
  - now destruct l.
  - rewrite <- E. now rewrite removelast_last.
Qed.

(** On non-negative samples the cast is the floor. *)
Lemma trunc_floor (q : Q) : (0 <= q)%Q -> trunc q = Qfloor q.
Proof.
  destruct q as [n d]. unfold Qle, trunc, Qfloor; simpl. intros Hn.
  apply Z.quot_div_nonneg; lia.
Qed.

Lemma trunc_inject_Z (z : Z) : trunc (inject_Z z) = z.
Proof. unfold trunc; simpl. apply Z.quot_1_r. Qed.

Lemma inject_Z_pos_neq (d : Z) : 0 < d -> ~ (inject_Z d == 0)%Q.
Proof. intros Hd E. unfold Qeq in E; simpl in E. lia. Qed.

(** The sample number [i] of [linspace(0, stop, d + 1)], cast to int. *)
Lemma sample_floor (i stop d : Z) :
  0 <= i -> 0 <= stop -> 0 < d ->
  trunc (inject_Z i * ((inject_Z stop - inject_Z 0) / inject_Z d) + inject_Z 0)%Q
  = i * stop / d.
Proof.
  intros Hi Hs Hd.
  assert (E : (inject_Z i * ((inject_Z stop - inject_Z 0) / inject_Z d) + inject_Z 0
               == inject_Z (i * stop) / inject_Z d)%Q).
  { rewrite inject_Z_mult. change (inject_Z 0) with 0%Q. field.
    now apply inject_Z_pos_neq. }
  rewrite trunc_floor.
  - rewrite E. symmetry. apply Zdiv_Qdiv.
  - rewrite E. apply Qle_shift_div_l.
    + change 0%Q with (inject_Z 0). rewrite <- Zlt_Qlt. exact Hd.
    + rewrite Qmult_0_l. change 0%Q with (inject_Z 0). rewrite <- Zle_Qle. nia.
Qed.

(** [np.linspace(0, stop, n, dtype=int)] with at least two samples over a
    non-degenerate range, samples taken exactly: sample [i] is the floor of
    [i * stop / (n - 1)]. *)
Lemma linspace_int_spaced (stop n : Z) :
  1 <= stop -> 2 <= n ->
  linspace_int 0 stop n = inr (map (fun i => i * stop / (n - 1)) (arange 0 n)).
Proof.
  intros Hs Hn. unfold linspace_int, linspace.
  destruct (Z.ltb_spec n 0); [lia|].
  destruct (Z.ltb_spec 0 (n - 1)); [|lia].
  destruct (Z.ltb_spec 1 n); [|lia].
  destruct (Qeq_bool _ 0) eqn:E.
  { exfalso. apply Qeq_bool_eq in E.
    assert (E' : (inject_Z stop - inject_Z 0 == 0)%Q).
    { rewrite <- (Qmult_div_r (inject_Z stop - inject_Z 0) (inject_Z (n - 1)))
        by (apply inject_Z_pos_neq; lia).
      rewrite E. apply Qmult_0_r. }
    unfold Qeq in E'; simpl in E'. lia. }
  f_equal. unfold astype_int.
  rewrite (arange_snoc n) by lia.
  rewrite !map_app. cbn [map].
  rewrite set_last_snoc, map_app. cbn [map].
  f_equal.
  - rewrite !map_map. apply map_ext_in. intros i Hi.
    apply arange_bounds in Hi. apply sample_floor; lia.
  - f_equal. rewrite trunc_inject_Z.
    rewrite Z.mul_comm. symmetry. apply Z.div_mul. lia.
Qed.

(** One sample: the start. *)
Lemma linspace_int_single (stop : Z) : linspace_int 0 stop 1 = inr [0].
Proof. reflexivity. Qed.

(** A degenerate range [[0, 0]]: every sample is 0. *)
Lemma linspace_int_degenerate (n : Z) :
  0 <= n -> linspace_int 0 0 n = inr (map (fun _ => 0) (arange 0 n)).
Proof.
  intros Hn.
  destruct (Z.eq_dec n 0) as [-> | Hn0]; [reflexivity|].
  destruct (Z.eq_dec n 1) as [-> | Hn1]; [reflexivity|].
  unfold linspace_int, linspace.
  destruct (Z.ltb_spec n 0); [lia|].
  destruct (Z.ltb_spec 0 (n - 1)); [|lia].
  destruct (Z.ltb_spec 1 n); [|lia].
  assert (E : Qeq_bool ((inject_Z 0 - inject_Z 0) / inject_Z (n - 1)) 0 = true).
  { apply Qeq_bool_iff. unfold Qdiv. change (inject_Z 0) with 0%Q. ring. }
  rewrite E. f_equal. unfold astype_int.
  rewrite (arange_snoc n) by lia.
  rewrite !map_app. cbn [map].
  rewrite set_last_snoc, map_app. cbn [map].
  f_equal. rewrite !map_map. apply map_ext. intros i.
  assert (E0 : (inject_Z i / inject_Z (n - 1) * (inject_Z 0 - inject_Z 0) + inject_Z 0
               == inject_Z 0)%Q).
  { change (inject_Z 0) with 0%Q. unfold Qdiv. ring. }
  rewrite trunc_floor.
  - rewrite E0. apply Qfloor_Z.
  - rewrite E0. apply Qle_refl.
Qed.

(** With at least one sample the first one is the start. *)
Lemma linspace_int_head (stop n : Z) :
  1 <= n -> exists rest, linspace_int 0 stop n = inr (0 :: rest).
Proof.
  intros Hn.
  destruct (Z.eq_dec n 1) as [-> | Hn1]; [exists []; reflexivity|].
  unfold linspace_int, linspace.
  destruct (Z.ltb_spec n 0); [lia|].
  destruct (Z.ltb_spec 0 (n - 1)); [|lia].
  destruct (Z.ltb_spec 1 n); [|lia].
  rewrite (arange_snoc n) by lia.
  destruct (arange_cons (n - 1)) as (rest & ->); [lia|].
  destruct (Qeq_bool _ 0);
    rewrite !map_app; cbn [map app]; rewrite !app_comm_cons, set_last_snoc;
    eexists; reflexivity.
Qed.

(** Indexing inside the bounds returns the element. *)
Lemma getitem_in_range (H : list mat4) (i : Z) :
  0 <= i < Z.of_nat (List.length H) -> getitem H i = inr (pose_at H i).
Proof.
  intros Hi. unfold getitem, pose_at.
  destruct (Z.ltb_spec i 0); [lia|].
  destruct (Z.leb_spec 0 i); [|lia].
  destruct (Z.ltb_spec i (Z.of_nat (List.length H))); [|lia].
  simpl. destruct (nth_error H (Z.to_nat i)) eqn:E.
  - f_equal. symmetry. now apply nth_error_nth.
  - apply nth_error_None in E. lia.
Qed.

Lemma getitem_empty {A} (i : Z) :
  getitem (@nil A) i = inl (IndexError "index out of bounds").
Proof.
  unfold getitem. simpl.
  destruct (i <? 0); rewrite ?Z.add_0_r;
    destruct (0 <=? i) eqn:E1; destruct (i <? 0) eqn:E2; simpl; try reflexivity;
    lia.
Qed.

End NumpyFacts.

(** ** The trajectory builder *)

Section TrajectoryFacts.
Import Numpy.
Local Open Scope Z_scope.

Lemma add_geometries_app (w : World) (a b : list Geometry) :
  add_geometries (add_geometries w a) b = add_geometries w (a ++ b).
Proof.
  unfold add_geometries, with_visualizer; simpl. now rewrite app_assoc.
Qed.

Lemma add_geometries_nil (w : World) : add_geometries w [] = w.
Proof.
  destruct w as [[g e l] o wn]. unfold add_geometries, with_visualizer; simpl.
  now rewrite app_nil_r.
Qed.

Lemma geometries_add_geometries (w : World) (gs : list Geometry) :
  geometries (visualizer (add_geometries w gs)) = geometries (visualizer w) ++ gs.
Proof. reflexivity. Qed.

Lemma combine_map_seq {A B} (f : nat -> A) (g : nat -> B) (l : list nat) :
  combine (map f l) (map g l) = map (fun k => (f k, g k)) l.
Proof. induction l; simpl; congruence. Qed.

Lemma map_const_repeat {A B} (b : B) (l : list A) :
  map (fun _ => b) l = repeat b (List.length l).
Proof. induction l; simpl; congruence. Qed.

(** The first half of [add_trajectory]: the points are the translations in
    sequence order, line [i] joins point [i] to point [i + 1], and there
    is one copy of the color per line. *)
Lemma line_set_value (self : Trajectory.t) :
  let N := List.length (Trajectory.H self) in
  Trajectory.line_set self =
    inr (LineSet (map trans (Trajectory.H self))
                 (map (fun k => (Z.of_nat k, Z.of_nat k + 1)) (seq 0 (N - 1)))
                 (repeat (Trajectory.c self) (N - 1))).
Proof.
  cbv zeta. unfold Trajectory.line_set, hstack_columns.
  rewrite !arange_length, length_map.
  set (N := List.length (Trajectory.H self)).
  replace (Z.to_nat (Z.of_nat N - 1 - 0)) with (N - 1)%nat by lia.
  replace (Z.to_nat (Z.of_nat N - 1)) with (N - 1)%nat by lia.
  rewrite Nat.eqb_refl. unfold arange.
  replace (Z.to_nat (Z.of_nat N - 1 - 0)) with (N - 1)%nat by lia.
  replace (Z.to_nat (Z.of_nat N - 1)) with (N - 1)%nat by lia.
  rewrite combine_map_seq, map_const_repeat.
  rewrite ?length_map, ?length_seq.
  do 2 f_equal. apply map_ext. intros k. f_equal; lia.
Qed.

(** [add_trajectory], one step at a time. *)
Lemma add_trajectory_unfold (self : Trajectory.t) (w : World) :
  Trajectory.add_trajectory self w =
    match Trajectory.line_set self with
    | inl e => (w, inl e)
    | inr ls =>
        match Trajectory.key_frames_indices self with
        | inl e => (add_geometries w [ls], inl e)
        | inr idxs =>
            for_each idxs (fun key_frame_idx =>
              bind (lift (getitem (Trajectory.H self) key_frame_idx)) (fun pose =>
              bind (Frame.init pose None (Trajectory.s self)) (fun frame =>
              Frame.add_frame frame)))
              (add_geometries w [ls])
        end
    end.
Proof.
  unfold Trajectory.add_trajectory, bind, lift.
  destruct (Trajectory.line_set self) as [e | ls]; [reflexivity|].
  unfold Figure.add_geometry, modify.
  destruct (Trajectory.key_frames_indices self) as [e | idxs]; reflexivity.
Qed.

(** One round of the key-frame loop. *)
Lemma key_frame_step (H : list mat4) (s : R) (i : Z) (w : World) :
  bind (lift (getitem H i)) (fun pose =>
    bind (Frame.init pose None s) (fun frame =>
    Frame.add_frame frame)) w
  = match getitem H i with
    | inr pose => (add_geometries w [CoordinateFrame s pose], inr tt)
    | inl e => (w, inl e)
    end.
Proof. unfold bind, lift. destruct (getitem H i); reflexivity. Qed.

(** The key-frame loop over indices that are all in range: one coordinate
    frame per index, in order, and no exception. *)
Lemma key_frame_loop_ok (H : list mat4) (s : R) (idxs : list Z) (w : World) :
  Forall (fun i => 0 <= i < Z.of_nat (List.length H)) idxs ->
  for_each idxs (fun key_frame_idx =>
    bind (lift (getitem H key_frame_idx)) (fun pose =>
    bind (Frame.init pose None s) (fun frame =>
    Frame.add_frame frame))) w
  = (add_geometries w (map (fun i => CoordinateFrame s (pose_at H i)) idxs), inr tt).
Proof.
  intros Hall. revert w. induction Hall as [| i idxs Hi _ IH]; intros w.
  - simpl. now rewrite add_geometries_nil.
  - cbn [for_each map]. unfold bind at 1. cbv beta.
    rewrite key_frame_step, (getitem_in_range H i Hi).
    rewrite IH, add_geometries_app. reflexivity.
Qed.

(** Whatever the indices, the loop adds coordinate frames only. *)
Lemma key_frame_loop_frames (H : list mat4) (s : R) (idxs : list Z) (w : World) :
  exists rest r,
    for_each idxs (fun key_frame_idx =>
      bind (lift (getitem H key_frame_idx)) (fun pose =>
      bind (Frame.init pose None s) (fun frame =>
      Frame.add_frame frame))) w
    = (add_geometries w rest, r) /\ Forall is_frame rest.
Proof.
  revert w. induction idxs as [| i idxs IH]; intros w.
  - exists [], (inr tt). simpl. now rewrite add_geometries_nil.
  - cbn [for_each]. unfold bind at 1. cbv beta. rewrite key_frame_step.
    destruct (getitem H i) as [e | pose].
    + exists [], (inl e). now rewrite add_geometries_nil.
    + destruct (IH (add_geometries w [CoordinateFrame s pose])) as (rest & r & E & F).
      exists (CoordinateFrame s pose :: rest), r.
      rewrite E, add_geometries_app. split; [reflexivity|].
      constructor; [exact I | exact F].
Qed.

(** C5: for a sequence of N >= 2 poses, the first geometry that
    [add_trajectory] hands to the figure is a line set whose points are the
    translations of the poses in sequence order and which has exactly
    N - 1 lines, line [k] joining point [k] to point [k + 1], with one
    color entry per line, every one of them the trajectory's color [c];
    everything added after it is a coordinate frame. *)
Theorem add_trajectory_polyline (self : Trajectory.t) (w : World) :
  let N := List.length (Trajectory.H self) in
  (2 <= N)%nat ->
  exists lines colors rest,
    geometries (visualizer (fst (Trajectory.add_trajectory self w))) =
      geometries (visualizer w) ++
      LineSet (map trans (Trajectory.H self)) lines colors :: rest /\
    Forall is_frame rest /\
    List.length lines = (N - 1)%nat /\
    (forall k, (k < N - 1)%nat ->
       nth_error lines k = Some (Z.of_nat k, Z.of_nat k + 1)) /\
    List.length colors = (N - 1)%nat /\
    Forall (fun col => col = Trajectory.c self) colors.
Proof.
  cbv zeta. intros HN.
  set (N := List.length (Trajectory.H self)) in *.
  exists (map (fun k => (Z.of_nat k, Z.of_nat k + 1)) (seq 0 (N - 1))),
         (repeat (Trajectory.c self) (N - 1)).
  assert (Hrest : exists rest,
    geometries (visualizer (fst (Trajectory.add_trajectory self w))) =
      geometries (visualizer w) ++
      LineSet (map trans (Trajectory.H self))
              (map (fun k => (Z.of_nat k, Z.of_nat k + 1)) (seq 0 (N - 1)))
              (repeat (Trajectory.c self) (N - 1)) :: rest /\
    Forall is_frame rest).
  { rewrite add_trajectory_unfold, line_set_value. fold N.
    destruct (Trajectory.key_frames_indices self) as [e | idxs].
    - exists []. split; [reflexivity | constructor].
    - match goal with |- context [for_each idxs ?f ?w'] =>
        destruct (key_frame_loop_frames (Trajectory.H self) (Trajectory.s self) idxs w')
          as (rest & r & E & F)
      end.
      exists rest. rewrite E. cbn [fst].
      rewrite !geometries_add_geometries, <- app_assoc. split; [reflexivity | exact F]. }
  destruct Hrest as (rest & Hg & Hf).
  exists rest. repeat split; try assumption.
  - now rewrite length_map, length_seq.
  - intros k Hk. rewrite nth_error_map, nth_error_seq.
    destruct (Nat.ltb_spec k (N - 1)); [reflexivity | lia].
  - apply repeat_length.
  - apply Forall_forall. intros col Hin. now apply repeat_spec in Hin.
Qed.

Lemma add_trajectory_polyline_witness :
  exists lines colors rest,
    geometries (visualizer (fst (Trajectory.add_trajectory Examples.three_poses Examples.w0))) =
      geometries (visualizer Examples.w0) ++
      LineSet (map trans (Trajectory.H Examples.three_poses)) lines colors :: rest /\
    Forall is_frame rest /\
    List.length lines = 2%nat /\
    (forall k, (k < 2)%nat ->
       nth_error lines k = Some (Z.of_nat k, Z.of_nat k + 1)) /\
    List.length colors = 2%nat /\
    Forall (fun col => col = Trajectory.c Examples.three_poses) colors.
Proof.
  apply (add_trajectory_polyline Examples.three_poses Examples.w0).
  simpl. lia.
Defined.

(** The indices of [add_trajectory] for at least two poses and at least
    one key frame, in the exact model of the samples (the float64 product
    [i * step] of the code can fall just short of a whole number). *)
Lemma key_frames_indices_value (self : Trajectory.t) :
  let N := Z.of_nat (List.length (Trajectory.H self)) in
  let n := Trajectory.n_frames self in
  2 <= N -> 1 <= n ->
  Trajectory.key_frames_indices self =
    inr (map (fun i => i * (N - 1) / (n - 1)) (arange 0 n)).
Proof.
  cbv zeta. intros HN Hn.
  unfold Trajectory.key_frames_indices, Trajectory.last_index.
  destruct (Z.eq_dec (Trajectory.n_frames self) 1) as [E | E].
  - rewrite E. reflexivity.
  - apply linspace_int_spaced; lia.
Qed.

Lemma floor_index_bounds (N n i : Z) :
  2 <= N -> 1 <= n -> 0 <= i < n -> 0 <= i * (N - 1) / (n - 1) <= N - 1.
Proof.
  intros HN Hn Hi.
  destruct (Z.eq_dec n 1) as [-> | Hn1].
  - simpl. rewrite Z.div_0_r. lia.
  - split.
    + apply Z.div_pos; nia.
    + apply Z.div_le_upper_bound; nia.
Qed.





(** C7, amended: a sequence of fewer than two poses is not rejected.
    With [n_frames] >= 1, the line set (the translations, no line, no color)
    is handed to the figure all the same; with exactly one pose
    [add_trajectory] then adds [n_frames] coordinate frames at that pose
    and returns normally; with no pose the first key-frame lookup raises
    [IndexError]. *)
Theorem short_sequence_not_rejected (self : Trajectory.t) (w : World) :
  let H := Trajectory.H self in
  let n := Trajectory.n_frames self in
  (List.length H < 2)%nat -> 1 <= n ->
  let ls := LineSet (map trans H) [] [] in
  Trajectory.line_set self = inr ls /\
  (List.length H = 1%nat ->
     Trajectory.add_trajectory self w =
       (add_geometries w
          (ls :: repeat (CoordinateFrame (Trajectory.s self) (pose_at H 0))
                        (Z.to_nat n)),
        inr tt)) /\
  (List.length H = 0%nat ->
     Trajectory.add_trajectory self w =
       (add_geometries w [ls], inl (IndexError "index out of bounds"))).
Proof.
  cbv zeta. intros HN Hn.
  assert (Hls : Trajectory.line_set self =
                inr (LineSet (map trans (Trajectory.H self)) [] [])).
  { rewrite line_set_value.
    replace (List.length (Trajectory.H self) - 1)%nat with 0%nat by lia.
    reflexivity. }
  split; [exact Hls|]. split; intros HL.
  - rewrite add_trajectory_unfold, Hls.
    unfold Trajectory.key_frames_indices, Trajectory.last_index.
    rewrite HL. cbn [Z.of_nat Pos.of_succ_nat Z.sub Z.add Z.opp Z.pos_sub].
    rewrite linspace_int_degenerate by lia.
    rewrite key_frame_loop_ok.
    + rewrite add_geometries_app, map_map, map_const_repeat, arange_length.
      rewrite Z.sub_0_r. reflexivity.
    + apply Forall_forall. intros i Hi. apply in_map_iff in Hi.
      destruct Hi as (_ & <- & _). lia.
  - rewrite add_trajectory_unfold, Hls.
    unfold Trajectory.key_frames_indices, Trajectory.last_index.
    destruct (linspace_int_head (Z.of_nat (List.length (Trajectory.H self)) - 1)
                (Trajectory.n_frames self) Hn) as (rest & ->).
    cbn [for_each]. unfold bind at 1. cbv beta. rewrite key_frame_step.
    apply length_zero_iff_nil in HL. rewrite HL, getitem_empty. reflexivity.
Qed.

Lemma short_sequence_not_rejected_witness :
  Trajectory.add_trajectory Examples.one_pose Examples.w0 =
    (add_geometries Examples.w0
       [LineSet [V3 0 0 0] [] [];
        CoordinateFrame 1 (Examples.pose_x 0);
        CoordinateFrame 1 (Examples.pose_x 0)],
     inr tt).
Proof.
  destruct (short_sequence_not_rejected Examples.one_pose Examples.w0)
    as (_ & Hone & _); [simpl; lia | simpl; lia |].
  rewrite Hone by reflexivity. reflexivity.
Defined.

End TrajectoryFacts.

(** ** The module level entry points *)

Section PlottingFacts.

Variable matrix_from_quaternion : vec4 -> mat3.

(** With [show_direction] false [plot_trajectory] is the builder run on
    the converted poses, with the defaults filled in. *)
Lemma plot_trajectory_runs_builder (P : list PosQuat) (n_frames : option Z)
    (s : option R) (c : option vec3) (w : World) :
  plot_trajectory matrix_from_quaternion P (Some false) n_frames s c w =
  Trajectory.add_trajectory
    (Trajectory.mk (matrices_from_pos_quat matrix_from_quaternion P) false
       (default 10%Z n_frames) (default 1%R s) (default (V3 0 0 0) c)) w.
Proof. reflexivity. Qed.

(** C6: [plot_trajectory] called with [show_direction=True] raises
    [AssertionError("not implemented yet")] whatever the other arguments,
    and the world (the figure's geometries in particular) is as before. *)
Theorem plot_trajectory_show_direction_fails (P : list PosQuat)
    (n_frames : option Z) (s : option R) (c : option vec3) (w : World) :
  plot_trajectory matrix_from_quaternion P (Some true) n_frames s c w =
    (w, inl (AssertionError "not implemented yet")).
Proof. reflexivity. Qed.

(** C10: [show_direction] defaults to [True], so a call that leaves it out
    raises [AssertionError("not implemented yet")] with the world as
    before; whatever is passed, either the argument is an explicit [False]
    or the call fails that way; and a call with an explicit [False] can
    succeed. *)
Theorem plot_trajectory_default_fails (P : list PosQuat)
    (n_frames : option Z) (s : option R) (c : option vec3) (w : World) :
  plot_trajectory matrix_from_quaternion P None n_frames s c w =
    (w, inl (AssertionError "not implemented yet")) /\
  (forall show_direction : option bool,
     show_direction = Some false \/
     plot_trajectory matrix_from_quaternion P show_direction n_frames s c w =
       (w, inl (AssertionError "not implemented yet"))) /\
  succeeds (plot_trajectory matrix_from_quaternion
              [Examples.pq0; Examples.pq0] (Some false) None None None w).
Proof.
  split; [reflexivity|]. split.
  - intros [[|]|]; [right | left | right]; reflexivity.
  - exists tt. reflexivity.
Qed.

End PlottingFacts.

(** C7, as stated, fails: a trajectory of a single pose is built without
    any error, through the class and through [plot_trajectory] alike: the
    figure receives a line set without lines and two coordinate frames. *)
Lemma single_pose_builds_geometry :
  Trajectory.add_trajectory Examples.one_pose Examples.w0 =
    (add_geometries Examples.w0
       [LineSet [V3 0 0 0] [] [];
        CoordinateFrame 1 (Examples.pose_x 0);
        CoordinateFrame 1 (Examples.pose_x 0)],
     inr tt) /\
  plot_trajectory Examples.mfq0 [Examples.pq0] (Some false) (Some 2%Z) None None
    Examples.w0 =
    (add_geometries Examples.w0
       [LineSet [V3 0 0 0] [] [];
        CoordinateFrame 1 (Examples.pose_x 0);
        CoordinateFrame 1 (Examples.pose_x 0)],
     inr tt).
Proof. split; reflexivity. Qed.

(** ** In-place re-posing *)

(** C8: [set_data] of a frame and of a trajectory raises
    [NotImplementedError]; the object (its [A2B] or [H] and the other
    fields) and the world, with every geometry the figure holds, are as
    before the call. *)
Theorem set_data_unsupported (f : Frame.t) (t : Trajectory.t) (w : World)
    (A2B : mat4) (H : list mat4) (label : option string) :
  Frame.set_data A2B label (f, w) = ((f, w), inl NotImplementedError) /\
  Trajectory.set_data H label (t, w) = ((t, w), inl NotImplementedError).
Proof. split; reflexivity. Qed.

(** ** URDF projection: the conditions that are skipped *)

Section UrdfFacts.

Variable read_triangle_mesh : string -> TriangleMesh.

Lemma mesh_show_without_path (self : Urdf.object) (filename : string)
    (scale : vec3) (tm : Urdf.TransformManager) (frame' : string)
    (c : option vec3) (w : World) :
  Urdf.mesh_path self = None ->
  Urdf.mesh_show read_triangle_mesh self filename scale tm frame' c w =
    (printed w "No mesh path given", inr tt).
Proof. intros E. unfold Urdf.mesh_show. rewrite E. reflexivity. Qed.

(** C9, amended: a mesh without a mesh path is skipped with the message
    "No mesh path given" on standard output: no geometry is added, no
    exception is raised, and the objects after it in the list are still
    shown.  A transform manager that lacks the attribute
    [collision_objects] (or [visuals]) is skipped without any message:
    the call behaves exactly as if the corresponding flag were off. *)
Theorem non_fatal_conditions_skipped (tm : Urdf.TransformManager)
    (frame' : string) (collision_objects' visuals' frames : bool)
    (whitelist : option (list string)) (s : R) (c : option vec3) (w : World) :
  (forall (self : Urdf.object) (filename : string) (scale : vec3)
          (rest : list Urdf.object),
     Urdf.geometry self = Urdf.Mesh filename scale ->
     Urdf.mesh_path self = None ->
     Urdf.show read_triangle_mesh self tm frame' c w =
       (printed w "No mesh path given", inr tt) /\
     Urdf._add_objects read_triangle_mesh tm (self :: rest) frame' c w =
       Urdf._add_objects read_triangle_mesh tm rest frame' c
         (printed w "No mesh path given")) /\
  (Urdf.collision_objects tm = None ->
     Urdf.show_urdf_transform_manager read_triangle_mesh tm frame'
       true visuals' frames whitelist s c w =
     Urdf.show_urdf_transform_manager read_triangle_mesh tm frame'
       false visuals' frames whitelist s c w) /\
  (Urdf.visuals tm = None ->
     Urdf.show_urdf_transform_manager read_triangle_mesh tm frame'
       collision_objects' true frames whitelist s c w =
     Urdf.show_urdf_transform_manager read_triangle_mesh tm frame'
       collision_objects' false frames whitelist s c w) /\
  (Urdf.collision_objects tm = None -> Urdf.visuals tm = None ->
     Urdf.show_urdf_transform_manager read_triangle_mesh tm frame'
       true true false whitelist s c w = (w, inr tt)).
Proof.
  repeat split.
  - unfold Urdf.show. rewrite H. now apply mesh_show_without_path.
  - unfold Urdf._add_objects. cbn [for_each]. unfold bind at 1.
    unfold Urdf.show at 1. rewrite H.
    rewrite mesh_show_without_path by assumption. reflexivity.
  - intros E. unfold Urdf.show_urdf_transform_manager. rewrite E. reflexivity.
  - intros E. unfold Urdf.show_urdf_transform_manager. rewrite E. reflexivity.
  - intros E1 E2. unfold Urdf.show_urdf_transform_manager. rewrite E1, E2.
    reflexivity.
Qed.

End UrdfFacts.

Lemma non_fatal_conditions_skipped_witness :
  Urdf.show_urdf_transform_manager Examples.read0 Examples.tm_mesh "base"
    true true false None 1 None Examples.w0 =
    (printed Examples.w0 "No mesh path given", inr tt).
Proof.
  destruct (non_fatal_conditions_skipped Examples.read0 Examples.tm_mesh "base"
              true true false None 1 None Examples.w0)
    as (_ & Hcoll & _).
  rewrite Hcoll by reflexivity. reflexivity.
Defined.

(** C9, as stated, fails: with both flags on, a transform manager that has
    neither [collision_objects] nor [visuals] is passed over without any
    message: the world after the call is the world before it, standard
    output and warnings included. *)
Lemma missing_attribute_skipped_silently :
  Urdf.show_urdf_transform_manager Examples.read0 Examples.tm_bare "base"
    true true false None 1 None Examples.w0 = (Examples.w0, inr tt) /\
  stdout (fst (Urdf.show_urdf_transform_manager Examples.read0 Examples.tm_bare
                 "base" true true false None 1 None Examples.w0)) = [] /\
  warned (fst (Urdf.show_urdf_transform_manager Examples.read0 Examples.tm_bare
                 "base" true true false None 1 None Examples.w0)) = [].
Proof. repeat split. Qed.

(** ** More on the camera orbit *)

Section CameraOrbit.
Local Open Scope R_scope.

Ltac unfold_mats :=
  cbv [Spec.orbit Spec.orbit_at_distance Spec.compose Spec.compose_rotations
       Spec.rotation_about_axis Spec.cross_matrix Spec.axis_vector Spec.madd
       Spec.mscale Spec.vscale Spec.R0_camera_to_world Spec.R0_world_to_camera
       camera_center transform_point det3 mvec mdot row_times dot3 col0 col1
       col2 transpose vadd eye3 rot trans bottom row0 row1 row2 vx vy vz].

Lemma radians_neg (x : R) : Spec.radians (- x) = - Spec.radians x.
Proof. unfold Spec.radians. field. Qed.

Lemma radians_plus (x y : R) : Spec.radians (x + y) = Spec.radians x + Spec.radians y.
Proof. unfold Spec.radians. field. Qed.

Lemma radians_360 : Spec.radians 360 = 2 * PI.
Proof. unfold Spec.radians. field. Qed.

Lemma cos_plus_2PI (x : R) : cos (x + 2 * PI) = cos x.
Proof. rewrite cos_plus, cos_2PI, sin_2PI. ring. Qed.

Lemma sin_plus_2PI (x : R) : sin (x + 2 * PI) = sin x.
Proof. rewrite sin_plus, cos_2PI, sin_2PI. ring. Qed.

(** X1: the extrinsic that [view_init] writes is a rigid transform: its
    rotation block is orthonormal (on both sides) with determinant 1 and
    its last row is [[0, 0, 0, 1]]. *)
Theorem view_init_extrinsic_rigid (w : World) (azim elev : R) :
  let E' := extrinsic (visualizer (fst (Figure.view_init azim elev w))) in
  mdot (rot E') (transpose (rot E')) = eye3 /\
  mdot (transpose (rot E')) (rot E') = eye3 /\
  det3 (rot E') = 1 /\
  bottom E' = V4 0 0 0 1.
Proof.
  cbv zeta. rewrite view_init_run. cbn [fst visualizer extrinsic].
  unfold_mats.
  generalize (sin2_cos2 (Spec.radians azim)).
  generalize (sin2_cos2 (Spec.radians (- elev))).
  generalize (sin (Spec.radians azim)) (cos (Spec.radians azim))
             (sin (Spec.radians (- elev))) (cos (Spec.radians (- elev))).
  intros sa ca se ce He Ha. unfold Rsqr in He, Ha.
  repeat split.
  - apply mat3_eq; apply vec3_eq; nsatz.
  - apply mat3_eq; apply vec3_eq; nsatz.
  - nsatz.
Qed.

(** X2: [view_init] forgets the angles of an earlier call: calling it with
    any angles and then with [azim', elev'] leaves the same world as
    calling it with [azim', elev'] alone. *)
Theorem view_init_forgets_previous (w : World) (azim elev azim' elev' : R) :
  Figure.view_init azim' elev' (fst (Figure.view_init azim elev w)) =
  Figure.view_init azim' elev' w.
Proof.
  rewrite !view_init_run. cbn [fst visualizer extrinsic geometries line_width
    stdout warned].
  now rewrite orbit_absorbs.
Qed.


(** X4: in exact real arithmetic the angles, given in degrees, count
    modulo 360: adding a full turn to the azimuth or to the elevation
    changes nothing.  (The rounding of float64 is not modelled.) *)
Theorem view_init_full_turn (w : World) (azim elev : R) :
  Figure.view_init (azim + 360) elev w = Figure.view_init azim elev w /\
  Figure.view_init azim (elev + 360) w = Figure.view_init azim elev w.
Proof.
  rewrite !view_init_run. split; do 3 f_equal.
  - unfold Spec.orbit, Spec.orbit_at_distance.
    rewrite radians_plus, radians_360.
    cbv [Spec.rotation_about_axis].
    now rewrite cos_plus_2PI, sin_plus_2PI.
  - unfold Spec.orbit, Spec.orbit_at_distance.
    rewrite !radians_neg, radians_plus, radians_360.
    cbv [Spec.rotation_about_axis].
    rewrite !cos_neg, !sin_neg.
    now rewrite cos_plus_2PI, sin_plus_2PI.
Qed.

(** X5: in exact real arithmetic azimuths add up as rotations of the
    world about its Z axis: the rotation block for azimuth [a + b] is the
    block for azimuth [a] multiplied on the right by the transpose of the
    rotation about Z by [b] degrees; the translation does not depend on
    the angles.  (The rounding of float64 is not modelled.) *)
Theorem view_init_azimuth_adds (w : World) (a b elev : R) :
  let E1 := extrinsic (visualizer (fst (Figure.view_init a elev w))) in
  let E2 := extrinsic (visualizer (fst (Figure.view_init (a + b) elev w))) in
  rot E2 =
    mdot (rot E1)
         (transpose (Spec.rotation_about_axis Spec.AxisZ (b * PI / 180))) /\
  trans E2 = trans E1.
Proof.
  cbv zeta. rewrite !view_init_run. cbn [fst visualizer extrinsic].
  split; [|reflexivity].
  fold (Spec.radians b). unfold Spec.orbit, Spec.orbit_at_distance.
  rewrite radians_plus. unfold_mats.
  rewrite cos_plus, sin_plus.
  apply mat3_eq; apply vec3_eq; ring.
Qed.

End CameraOrbit.

(** ** More on the trajectory builder *)

Section TrajectoryBuilder.
Import Numpy.
Local Open Scope Z_scope.

Lemma arange_nth_error_inv (a b : Z) (k : nat) (v : Z) :
  nth_error (arange a b) k = Some v ->
  v = a + Z.of_nat k /\ (k < Z.to_nat (b - a))%nat.
Proof.
  unfold arange. rewrite nth_error_map, nth_error_seq.
  destruct (Nat.ltb_spec k (Z.to_nat (b - a))); simpl; [|discriminate].
  intros [= <-]. split; [reflexivity | assumption].
Qed.

Lemma map_pose_at_arange (H : list mat4) :
  map (pose_at H) (arange 0 (Z.of_nat (List.length H))) = H.
Proof.
  unfold arange. rewrite Z.sub_0_r, Nat2Z.id, map_map.
  apply nth_error_ext. intros k.
  rewrite nth_error_map, nth_error_seq.
  destruct (Nat.ltb_spec k (List.length H)) as [Hk | Hk]; simpl.
  - unfold pose_at. rewrite Nat2Z.id. symmetry.
    apply nth_error_nth'. exact Hk.
  - symmetry. now apply nth_error_None.
Qed.

(** The indices for any non-empty sequence and any number of key frames
    that is not negative: as many as requested, all inside the sequence. *)
Lemma key_frames_indices_in_range (self : Trajectory.t) :
  let N := Z.of_nat (List.length (Trajectory.H self)) in
  let n := Trajectory.n_frames self in
  1 <= N -> 0 <= n ->
  exists idxs,
    Trajectory.key_frames_indices self = inr idxs /\
    List.length idxs = Z.to_nat n /\
    Forall (fun i => 0 <= i < N) idxs.
Proof.
  cbv zeta. intros HN Hn.
  destruct (Z.eq_dec (Trajectory.n_frames self) 0) as [E0 | E0].
  { exists []. unfold Trajectory.key_frames_indices. rewrite E0.
    repeat split. constructor. }
  destruct (Z.eq_dec (Z.of_nat (List.length (Trajectory.H self))) 1) as [E1 | E1].
  { eexists. unfold Trajectory.key_frames_indices, Trajectory.last_index.
    rewrite E1. cbn [Z.sub Z.add Z.opp Z.pos_sub].
    rewrite linspace_int_degenerate by lia. split; [reflexivity|]. split.
    - rewrite length_map, arange_length. f_equal. lia.
    - apply Forall_forall. intros i Hi. apply in_map_iff in Hi.
      destruct Hi as (_ & <- & _). lia. }
  eexists. rewrite key_frames_indices_value by lia. split; [reflexivity|]. split.
  - rewrite length_map, arange_length. f_equal. lia.
  - apply Forall_forall. intros j Hj. apply in_map_iff in Hj.
    destruct Hj as (i & <- & Hi). apply arange_bounds in Hi.
    pose proof (floor_index_bounds (Z.of_nat (List.length (Trajectory.H self)))
                  (Trajectory.n_frames self) i) as Hb.
    lia.
Qed.

(** A non-empty sequence with [n_frames] >= 0: the whole run. *)
Lemma add_trajectory_nonempty (self : Trajectory.t) (w : World) :
  let H := Trajectory.H self in
  let n := Trajectory.n_frames self in
  (1 <= List.length H)%nat -> 0 <= n ->
  exists idxs,
    List.length idxs = Z.to_nat n /\
    Forall (fun i => 0 <= i < Z.of_nat (List.length H)) idxs /\
    Trajectory.add_trajectory self w =
      (add_geometries w
         (LineSet (map trans H)
            (map (fun k => (Z.of_nat k, Z.of_nat k + 1))
                 (seq 0 (List.length H - 1)))
            (repeat (Trajectory.c self) (List.length H - 1))
          :: map (fun i => CoordinateFrame (Trajectory.s self) (pose_at H i)) idxs),
       inr tt).
Proof.
  cbv zeta. intros HN Hn.
  destruct (key_frames_indices_in_range self) as (idxs & Hi & Hl & Hr); [lia | lia |].
  exists idxs. split; [exact Hl|]. split; [exact Hr|].
  rewrite add_trajectory_unfold, line_set_value, Hi.
  rewrite key_frame_loop_ok.
  - now rewrite add_geometries_app.
  - eapply Forall_impl; [|exact Hr]. intros a Ha. cbv beta in *. lia.
Qed.

(** X6: for at least one pose and [n_frames] >= 0, [add_trajectory]
    returns normally and hands exactly [1 + n_frames] geometries to the
    figure: the line set, then [n_frames] coordinate frames of scale [s],
    each at one of the poses of [H]. *)
Theorem add_trajectory_geometry_count (self : Trajectory.t) (w : World) :
  let H := Trajectory.H self in
  let n := Trajectory.n_frames self in
  (1 <= List.length H)%nat -> 0 <= n ->
  exists ls frames,
    Trajectory.line_set self = inr ls /\
    Trajectory.add_trajectory self w = (add_geometries w (ls :: frames), inr tt) /\
    List.length frames = Z.to_nat n /\
    Forall (fun g => exists pose,
              In pose H /\ g = CoordinateFrame (Trajectory.s self) pose) frames /\
    List.length (geometries (visualizer (fst (Trajectory.add_trajectory self w)))) =
      (List.length (geometries (visualizer w)) + 1 + Z.to_nat n)%nat.
Proof.
  cbv zeta. intros HN Hn.
  destruct (add_trajectory_nonempty self w) as (idxs & Hl & Hr & Hrun); [lia | lia |].
  eexists. eexists. split; [apply line_set_value|].
  split; [exact Hrun|]. split; [now rewrite length_map|]. split.
  - apply Forall_forall. intros g Hg. apply in_map_iff in Hg.
    destruct Hg as (i & <- & Hin).
    rewrite Forall_forall in Hr. specialize (Hr i Hin).
    eexists. split; [|reflexivity]. unfold pose_at. apply nth_In. lia.
  - rewrite Hrun. cbn [fst]. rewrite geometries_add_geometries.
    rewrite length_app. cbn [List.length]. rewrite length_map. lia.
Qed.

Lemma add_trajectory_geometry_count_witness :
  List.length (geometries (visualizer
     (fst (Trajectory.add_trajectory Examples.three_poses Examples.w0)))) = 5%nat.
Proof.
  destruct (add_trajectory_geometry_count Examples.three_poses Examples.w0)
    as (ls & frames & _ & _ & _ & _ & Hc); [simpl; lia | simpl; lia |].
  exact Hc.
Defined.

(** X7: a negative [n_frames] is refused by [np.linspace] with a
    [ValueError], but only after the line set was handed to the figure:
    the failed call leaves that one geometry behind, whatever [H] is. *)
Theorem add_trajectory_negative_n_frames (self : Trajectory.t) (w : World) :
  Trajectory.n_frames self < 0 ->
  exists ls msg,
    Trajectory.line_set self = inr ls /\
    Trajectory.add_trajectory self w =
      (add_geometries w [ls], inl (ValueError msg)).
Proof.
  intros Hn. eexists. eexists. split; [apply line_set_value|].
  rewrite add_trajectory_unfold, line_set_value.
  unfold Trajectory.key_frames_indices, linspace_int, linspace.
  destruct (Z.ltb_spec (Trajectory.n_frames self) 0); [reflexivity | lia].
Qed.

Lemma add_trajectory_negative_n_frames_witness :
  exists ls msg,
    Trajectory.line_set Examples.two_poses_negative = inr ls /\
    Trajectory.add_trajectory
      Examples.two_poses_negative Examples.w0 =
      (add_geometries Examples.w0 [ls], inl (ValueError msg)).
Proof.
  apply (add_trajectory_negative_n_frames
           Examples.two_poses_negative Examples.w0).
  simpl. lia.
Defined.

(** X8: for N >= 2 poses the key-frame indices never go back along the
    sequence, and when no more key frames are requested than there are
    poses they are strictly increasing: no pose is drawn twice. *)
Theorem key_frames_indices_increasing (self : Trajectory.t) :
  let N := Z.of_nat (List.length (Trajectory.H self)) in
  let n := Trajectory.n_frames self in
  2 <= N -> 1 <= n ->
  exists idxs,
    Trajectory.key_frames_indices self = inr idxs /\
    forall (i j : nat) (vi vj : Z),
      (i < j)%nat ->
      nth_error idxs i = Some vi -> nth_error idxs j = Some vj ->
      vi <= vj /\ (n <= N -> vi < vj).
Proof.
  cbv zeta. intros HN Hn.
  eexists. split; [apply key_frames_indices_value; assumption|].
  set (N := Z.of_nat (List.length (Trajectory.H self))) in *.
  set (n := Trajectory.n_frames self) in *.
  intros i j vi vj Hij Hi Hj.
  rewrite nth_error_map in Hi, Hj.
  destruct (nth_error (arange 0 n) i) as [ai|] eqn:Ei; [|discriminate].
  destruct (nth_error (arange 0 n) j) as [aj|] eqn:Ej; [|discriminate].
  apply arange_nth_error_inv in Ei, Ej.
  destruct Ei as [-> Hi'], Ej as [-> Hj'].
  simpl in Hi, Hj. injection Hi as <-. injection Hj as <-.
  rewrite ?Z.add_0_l.
  assert (Hd : 0 < n - 1) by lia.
  split.
  - apply Z.div_le_mono; [lia | nia].
  - intros HnN.
    apply Z.lt_le_trans with ((Z.of_nat i * (N - 1) + 1 * (n - 1)) / (n - 1)).
    + rewrite Z.div_add by lia. lia.
    + apply Z.div_le_mono; [lia | nia].
Qed.

Lemma key_frames_indices_increasing_witness :
  exists idxs,
    Trajectory.key_frames_indices Examples.three_poses_two = inr idxs /\
    forall (i j : nat) (vi vj : Z),
      (i < j)%nat ->
      nth_error idxs i = Some vi -> nth_error idxs j = Some vj ->
      vi <= vj /\ (2 <= 3 -> vi < vj).
Proof.
  apply (key_frames_indices_increasing Examples.three_poses_two).
  - simpl. lia.
  - simpl. lia.
Defined.

(** X9: when as many key frames are requested as there are poses (at
    least two), the indices are 0, 1, ..., N - 1 and [add_trajectory] draws
    one coordinate frame at every pose, in sequence order. *)
Theorem key_frames_at_every_pose (self : Trajectory.t) (w : World) :
  let H := Trajectory.H self in
  let N := Z.of_nat (List.length H) in
  2 <= N -> Trajectory.n_frames self = N ->
  Trajectory.key_frames_indices self = inr (arange 0 N) /\
  exists ls,
    Trajectory.line_set self = inr ls /\
    Trajectory.add_trajectory self w =
      (add_geometries w
         (ls :: map (fun pose => CoordinateFrame (Trajectory.s self) pose) H),
       inr tt).
Proof.
  cbv zeta. intros HN En.
  set (N := Z.of_nat (List.length (Trajectory.H self))) in *.
  assert (Hi : Trajectory.key_frames_indices self = inr (arange 0 N)).
  { rewrite key_frames_indices_value by (fold N; lia).
    fold N. rewrite En. f_equal.
    rewrite <- (map_id (arange 0 N)) at 2.
    apply map_ext. intros i. apply Z.div_mul. lia. }
  split; [exact Hi|].
  eexists. split; [apply line_set_value|].
  rewrite add_trajectory_unfold, line_set_value, Hi.
  rewrite key_frame_loop_ok.
  - rewrite add_geometries_app. cbn [app].
    do 3 f_equal.
    transitivity (map (fun pose => CoordinateFrame (Trajectory.s self) pose)
                      (map (pose_at (Trajectory.H self)) (arange 0 N))).
    + now rewrite map_map.
    + unfold N. now rewrite map_pose_at_arange.
  - apply Forall_forall. intros i Hin. apply arange_bounds in Hin.
    fold N. lia.
Qed.

(** X10: [add_trajectory] never reads [show_direction]: two trajectories
    that differ in that flag only leave the same world and result, so a
    [Trajectory] built directly with [show_direction=True] is drawn like one
    without directions. *)
Theorem add_trajectory_ignores_show_direction (H : list mat4)
    (show_direction show_direction' : bool) (n_frames : Z) (s : R) (c : vec3)
    (w : World) :
  Trajectory.add_trajectory (Trajectory.mk H show_direction n_frames s c) w =
  Trajectory.add_trajectory (Trajectory.mk H show_direction' n_frames s c) w.
Proof. reflexivity. Qed.

End TrajectoryBuilder.

Section PlotTrajectory.
Local Open Scope Z_scope.

Variable matrix_from_quaternion : vec4 -> mat3.

(** X11: [plot_trajectory] with [show_direction=False] on at least one
    pose, with [n_frames] (10 when left out) not negative, returns
    normally.  The polyline goes through the positions of [P] in order,
    whatever the quaternions are; it is followed by [n_frames] coordinate
    frames of scale [s] (1 when left out), each at the position and with the
    rotation of one row of [P]. *)
Theorem plot_trajectory_through_positions (P : list PosQuat)
    (n_frames : option Z) (s : option R) (c : option vec3) (w : World) :
  let N := List.length P in
  (1 <= N)%nat -> 0 <= default 10 n_frames ->
  exists frames,
    plot_trajectory matrix_from_quaternion P (Some false) n_frames s c w =
      (add_geometries w
         (LineSet (map pos P)
            (map (fun k => (Z.of_nat k, Z.of_nat k + 1)) (seq 0 (N - 1)))
            (repeat (default (V3 0 0 0) c) (N - 1))
          :: frames),
       inr tt) /\
    List.length frames = Z.to_nat (default 10 n_frames) /\
    Forall (fun g => exists pq,
              In pq P /\
              g = CoordinateFrame (default 1%R s)
                    (transform_from (matrix_from_quaternion (quat pq)) (pos pq)))
           frames.
Proof.
  cbv zeta. intros HN Hn.
  rewrite plot_trajectory_runs_builder.
  match goal with |- context [Trajectory.add_trajectory ?t w] =>
    destruct (add_trajectory_nonempty t w) as (idxs & Hl & Hr & Hrun)
  end.
  { cbn [Trajectory.H]. unfold matrices_from_pos_quat. now rewrite length_map. }
  { exact Hn. }
  cbn [Trajectory.H Trajectory.n_frames Trajectory.s Trajectory.c] in *.
  unfold matrices_from_pos_quat in *. rewrite length_map in *.
  rewrite map_map in Hrun. cbn [trans transform_from] in Hrun.
  eexists. split; [exact Hrun|]. split; [now rewrite length_map|].
  apply Forall_forall. intros g Hg. apply in_map_iff in Hg.
  destruct Hg as (i & <- & Hin).
  rewrite Forall_forall in Hr. specialize (Hr i Hin).
  set (H := map _ P).
  assert (HinH : In (pose_at H i) H).
  { unfold pose_at. apply nth_In. unfold H. rewrite length_map. lia. }
  unfold H in HinH at 2. apply in_map_iff in HinH.
  destruct HinH as (pq & Epq & Hpq).
  exists pq. split; [exact Hpq|]. now rewrite <- Epq.
Qed.

End PlotTrajectory.

Lemma plot_trajectory_through_positions_witness :
  exists frames,
    plot_trajectory Examples.mfq0 [Examples.pq0; Examples.pq0] (Some false)
      None None None Examples.w0 =
      (add_geometries Examples.w0
         (LineSet [V3 0 0 0; V3 0 0 0]
            (map (fun k => (Z.of_nat k, (Z.of_nat k + 1)%Z)) (seq 0 1))
            (repeat (V3 0 0 0) 1)
          :: frames),
       inr tt) /\
    List.length frames = 10%nat /\
    Forall (fun g => exists pq,
              In pq [Examples.pq0; Examples.pq0] /\
              g = CoordinateFrame 1%R
                    (transform_from (Examples.mfq0 (quat pq)) (pos pq)))
           frames.
Proof.
  apply (plot_trajectory_through_positions Examples.mfq0
           [Examples.pq0; Examples.pq0] None None None Examples.w0).
  - simpl. lia.
  - simpl. lia.
Defined.


(** ** Frames, and more on the URDF projection *)

Section Loops.

(** A loop over a concatenation runs the first part, then the second. *)
Lemma for_each_app {St A} (xs ys : list A) (body : A -> M St unit) (st : St) :
  for_each (xs ++ ys) body st =
  bind (for_each xs body) (fun _ => for_each ys body) st.
Proof.
  revert st. induction xs as [| x xs IH]; intros st.
  - reflexivity.
  - cbn [app for_each]. unfold bind.
    destruct (body x st) as [st' [e | u]]; [reflexivity|].
    rewrite IH. reflexivity.
Qed.

End Loops.

(** X12: a label makes no difference to what is drawn: building a frame
    and adding it returns normally and adds the one coordinate frame of
    size [s] at [A2B]; the only effect of a label is one warning that text
    is not supported. *)
Theorem frame_label_only_warns (A2B : mat4) (label : option string) (s : R)
    (w : World) :
  let out := bind (Frame.init A2B label s) Frame.add_frame w in
  snd out = inr tt /\
  geometries (visualizer (fst out)) =
    geometries (visualizer w) ++ [CoordinateFrame s A2B] /\
  extrinsic (visualizer (fst out)) = extrinsic (visualizer w) /\
  stdout (fst out) = stdout w /\
  warned (fst out) =
    warned w ++
    match label with
    | Some _ =>
        ["This viewer does not support text. Frame label will be ignored."%string]
    | None => []
    end.
Proof.
  destruct label; cbv zeta; repeat split; cbn; now rewrite ?app_nil_r.
Qed.

Section UrdfProjection.

Variable read_triangle_mesh : string -> TriangleMesh.

Lemma show_frames_only (tm : Urdf.TransformManager) (frame' : string)
    (whitelist : option (list string)) (s : R) (c : option vec3) (w : World) :
  Urdf.show_urdf_transform_manager read_triangle_mesh tm frame'
    false false true whitelist s c w =
  for_each (Urdf.nodes tm)
    (fun node => Urdf._add_frame tm node frame' whitelist s) w.
Proof. reflexivity. Qed.

Lemma add_frame_step (tm : Urdf.TransformManager) (node frame' : string)
    (whitelist : option (list string)) (s : R) (w : World) :
  Urdf._add_frame tm node frame' whitelist s w =
    if whitelisted whitelist node then
      match Urdf.get_transform tm node frame' with
      | inr A2B => (add_geometries w [CoordinateFrame s A2B], inr tt)
      | inl e => (w, inl e)
      end
    else (w, inr tt).
Proof.
  unfold Urdf._add_frame, whitelisted.
  destruct whitelist as [wl|].
  - destruct (existsb (String.eqb node) wl); cbn [negb]; [|reflexivity].
    unfold bind, lift. destruct (Urdf.get_transform tm node frame'); reflexivity.
  - unfold bind, lift. destruct (Urdf.get_transform tm node frame'); reflexivity.
Qed.

Lemma frames_loop (tm : Urdf.TransformManager) (frame' : string)
    (whitelist : option (list string)) (s : R) (T : string -> mat4)
    (ns : list string) (w : World) :
  (forall node, In node ns -> whitelisted whitelist node = true ->
     Urdf.get_transform tm node frame' = inr (T node)) ->
  for_each ns (fun node => Urdf._add_frame tm node frame' whitelist s) w =
    (add_geometries w
       (map (fun node => CoordinateFrame s (T node))
            (filter (whitelisted whitelist) ns)),
     inr tt).
Proof.
  revert w. induction ns as [| node ns IH]; intros w Hok.
  - cbn. now rewrite add_geometries_nil.
  - cbn [for_each filter]. unfold bind at 1. rewrite add_frame_step.
    destruct (whitelisted whitelist node) eqn:Ew.
    + rewrite (Hok node (or_introl eq_refl) Ew).
      rewrite IH by (intros n Hn; apply Hok; now right).
      cbn [map]. now rewrite add_geometries_app.
    + apply IH. intros n Hn. apply Hok. now right.
Qed.

(** X13: with only [frames] on, one coordinate frame of size [s] is drawn
    for every node that passes the whitelist, in the order of [tm.nodes],
    at the node's transform to the reference frame; nodes outside the
    whitelist are never looked up, so a node without a transform does no
    harm there. *)
Theorem frames_follow_whitelist (tm : Urdf.TransformManager) (frame' : string)
    (whitelist : option (list string)) (s : R) (c : option vec3)
    (T : string -> mat4) (w : World) :
  (forall node, In node (Urdf.nodes tm) -> whitelisted whitelist node = true ->
     Urdf.get_transform tm node frame' = inr (T node)) ->
  Urdf.show_urdf_transform_manager read_triangle_mesh tm frame'
    false false true whitelist s c w =
    (add_geometries w
       (map (fun node => CoordinateFrame s (T node))
            (filter (whitelisted whitelist) (Urdf.nodes tm))),
     inr tt).
Proof. intros Hok. rewrite show_frames_only. now apply frames_loop. Qed.

(** X14: the first whitelisted node whose transform lookup raises ends the
    call with that exception; the frames of the nodes before it stay in the
    figure and the nodes after it are not visited. *)
Theorem frames_lookup_failure (tm : Urdf.TransformManager) (frame' : string)
    (whitelist : option (list string)) (s : R) (c : option vec3)
    (T : string -> mat4) (pre post : list string) (node : string) (e : exn)
    (w : World) :
  Urdf.nodes tm = pre ++ node :: post ->
  (forall x, In x pre -> whitelisted whitelist x = true ->
     Urdf.get_transform tm x frame' = inr (T x)) ->
  whitelisted whitelist node = true ->
  Urdf.get_transform tm node frame' = inl e ->
  Urdf.show_urdf_transform_manager read_triangle_mesh tm frame'
    false false true whitelist s c w =
    (add_geometries w
       (map (fun x => CoordinateFrame s (T x))
            (filter (whitelisted whitelist) pre)),
     inl e).
Proof.
  intros Hn Hpre Hw He. rewrite show_frames_only, Hn, for_each_app.
  unfold bind at 1. rewrite (frames_loop tm frame' whitelist s T pre w Hpre).
  cbn [for_each]. unfold bind at 1. rewrite add_frame_step, Hw, He.
  reflexivity.
Qed.

Lemma show_unsupported (obj : Urdf.object) (tm : Urdf.TransformManager)
    (frame' : string) (c : option vec3) (w : World) :
  unsupported obj = true ->
  Urdf.show read_triangle_mesh obj tm frame' c w = (w, inl NotImplementedError).
Proof.
  unfold unsupported, Urdf.show.
  destruct (Urdf.geometry obj); intros E; [reflexivity .. | discriminate].
Qed.

Lemma add_objects_unsupported (tm : Urdf.TransformManager) (frame' : string)
    (c : option vec3) (pre post : list Urdf.object) (obj : Urdf.object)
    (w w' : World) :
  unsupported obj = true ->
  Urdf._add_objects read_triangle_mesh tm pre frame' c w = (w', inr tt) ->
  Urdf._add_objects read_triangle_mesh tm (pre ++ obj :: post) frame' c w =
    (w', inl NotImplementedError).
Proof.
  intros Hu Hpre. unfold Urdf._add_objects in *.
  rewrite for_each_app. unfold bind at 1. rewrite Hpre.
  cbn [for_each]. unfold bind at 1. rewrite show_unsupported by assumption.
  reflexivity.
Qed.

(** X15: a box, sphere or cylinder among the collision objects (or, with
    the collision objects off, among the visuals) ends the whole call with
    [NotImplementedError] as soon as it is reached: what the objects before
    it did stays, and neither the remaining objects nor the later stages
    (visuals, frames) are processed, whatever their flags. *)
Theorem unsupported_shape_aborts (tm : Urdf.TransformManager) (frame' : string)
    (visuals' frames : bool) (whitelist : option (list string)) (s : R)
    (c : option vec3) (pre post : list Urdf.object) (obj : Urdf.object)
    (w w' : World) :
  unsupported obj = true ->
  Urdf._add_objects read_triangle_mesh tm pre frame' c w = (w', inr tt) ->
  (Urdf.collision_objects tm = Some (pre ++ obj :: post) ->
   Urdf.show_urdf_transform_manager read_triangle_mesh tm frame'
     true visuals' frames whitelist s c w = (w', inl NotImplementedError)) /\
  (Urdf.visuals tm = Some (pre ++ obj :: post) ->
   Urdf.show_urdf_transform_manager read_triangle_mesh tm frame'
     false true frames whitelist s c w = (w', inl NotImplementedError)).
Proof.
  intros Hu Hpre. split; intros E; unfold Urdf.show_urdf_transform_manager;
    rewrite E.
  - unfold bind at 1.
    rewrite (add_objects_unsupported tm frame' c pre post obj w w' Hu Hpre).
    reflexivity.
  - unfold bind at 1. unfold ret at 1. unfold bind at 1.
    rewrite (add_objects_unsupported tm frame' c pre post obj w w' Hu Hpre).
    reflexivity.
Qed.

(** X16: a mesh with a mesh path.  If the transform lookup raises, that
    exception is the result and nothing is added.  Otherwise exactly one
    mesh is added: vertex [k] is vertex [k] of the file, scaled
    componentwise and then moved by the transform; the triangles are those
    of the file; with a color, there is one color entry per vertex, all
    equal to it, and without a color the file's colors are kept. *)
Theorem mesh_show_with_path (self : Urdf.object) (filename : string)
    (scale : vec3) (tm : Urdf.TransformManager) (frame' : string)
    (c : option vec3) (path : string) (w : World) :
  Urdf.mesh_path self = Some path ->
  let mesh := read_triangle_mesh filename in
  match Urdf.get_transform tm (Urdf.frame self) frame' with
  | inl e =>
      Urdf.mesh_show read_triangle_mesh self filename scale tm frame' c w =
        (w, inl e)
  | inr A2B =>
      exists shown,
        Urdf.mesh_show read_triangle_mesh self filename scale tm frame' c w =
          (add_geometries w [Mesh3d shown], inr tt) /\
        vertices shown =
          map (fun v => transform_point A2B (vmul v scale)) (vertices mesh) /\
        List.length (vertices shown) = List.length (vertices mesh) /\
        triangles shown = triangles mesh /\
        vertex_colors shown =
          match c with
          | Some col => repeat col (List.length (vertices mesh))
          | None => vertex_colors mesh
          end
  end.
Proof.
  intros Ep. cbv zeta. unfold Urdf.mesh_show. rewrite Ep.
  unfold bind, lift.
  destruct (Urdf.get_transform tm (Urdf.frame self) frame') as [e | A2B];
    [reflexivity|].
  eexists. split; [reflexivity|]. cbn [vertices triangles vertex_colors].
  rewrite map_map. split; [reflexivity|].
  split; [now rewrite length_map|]. split; [reflexivity|].
  destruct c; [|reflexivity].
  now rewrite map_const_repeat, length_map.
Qed.

End UrdfProjection.

Lemma key_frames_at_every_pose_witness :
  Trajectory.key_frames_indices Examples.three_poses_all =
    inr (Numpy.arange 0 3) /\
  exists ls,
    Trajectory.line_set Examples.three_poses_all = inr ls /\
    Trajectory.add_trajectory Examples.three_poses_all Examples.w0 =
      (add_geometries Examples.w0
         (ls :: map (fun pose => CoordinateFrame 1 pose)
                    (Trajectory.H Examples.three_poses_all)),
       inr tt).
Proof.
  apply (key_frames_at_every_pose Examples.three_poses_all Examples.w0).
  - simpl. lia.
  - reflexivity.
Defined.

Lemma frames_follow_whitelist_witness :
  Urdf.show_urdf_transform_manager Examples.read0 Examples.tm_two_nodes "base"
    false false true (Some ["a"%string]) 1 None Examples.w0 =
    (add_geometries Examples.w0 [CoordinateFrame 1 (Examples.pose_x 1)], inr tt).
Proof.
  apply (frames_follow_whitelist Examples.read0 Examples.tm_two_nodes "base"
           (Some ["a"%string]) 1 None (fun _ => Examples.pose_x 1) Examples.w0).
  intros node [<- | [<- | []]] Hw.
  - reflexivity.
  - discriminate Hw.
Defined.

Lemma frames_lookup_failure_witness :
  Urdf.show_urdf_transform_manager Examples.read0 Examples.tm_two_nodes "base"
    false false true None 1 None Examples.w0 =
    (add_geometries Examples.w0 [CoordinateFrame 1 (Examples.pose_x 1)],
     inl (KeyError "unknown frame")).
Proof.
  apply (frames_lookup_failure Examples.read0 Examples.tm_two_nodes "base"
           None 1 None (fun _ => Examples.pose_x 1) ["a"%string] [] "b"
           (KeyError "unknown frame") Examples.w0).
  - reflexivity.
  - intros x [<- | []] _. reflexivity.
  - reflexivity.
  - reflexivity.
Defined.

Lemma unsupported_shape_aborts_witness :
  Urdf.show_urdf_transform_manager Examples.read0 Examples.tm_two_nodes "base"
    true true true None 1 None Examples.w0 =
    (printed Examples.w0 "No mesh path given", inl NotImplementedError).
Proof.
  destruct (unsupported_shape_aborts Examples.read0 Examples.tm_two_nodes "base"
              true true None 1 None [Examples.mesh_no_path] []
              Examples.box_object Examples.w0
              (printed Examples.w0 "No mesh path given"))
    as [Hc _]; [reflexivity | reflexivity |].
  apply Hc. reflexivity.
Defined.

Lemma mesh_show_with_path_witness :
  exists shown,
    Urdf.mesh_show Examples.read0 Examples.mesh_with_path "part.stl" (V3 2 2 2)
      Examples.tm_two_nodes "base" (Some (V3 1 0 0)) Examples.w0 =
      (add_geometries Examples.w0 [Mesh3d shown], inr tt) /\
    vertices shown =
      map (fun v => transform_point (Examples.pose_x 1) (vmul v (V3 2 2 2)))
          (vertices (Examples.read0 "part.stl")) /\
    List.length (vertices shown) =
      List.length (vertices (Examples.read0 "part.stl")) /\
    triangles shown = triangles (Examples.read0 "part.stl") /\
    vertex_colors shown =
      repeat (V3 1 0 0) (List.length (vertices (Examples.read0 "part.stl"))).
Proof.
  exact (mesh_show_with_path Examples.read0 Examples.mesh_with_path "part.stl"
           (V3 2 2 2) Examples.tm_two_nodes "base" (Some (V3 1 0 0))
           "meshes/" Examples.w0 eq_refl).
Defined.
